(** * Serial connection lifecycle of the Arduino IDE extension

    A shallow embedding of
    - [SerialConnectionManager] and [PlotterFrontendContribution]
      (browser/serial/serial-connection-manager.ts), and
    - [CoreServiceImpl] (the upload / burn-bootloader paths),
    together with the properties of the connection-state coordination
    that the specification states about them.

    Every [async] method is modelled as a state transformer that runs to
    completion: the coordinator is single threaded and the properties
    below are about one operation at a time.  Calls to collaborators
    whose code is not part of the embedded sources (the backend serial
    service, the message service, the browser timers and sockets) are
    recorded in a trace of events; [console.*] logging is left out, and so
    is the wiring of listeners in the constructor, whose callbacks
    ([handleWebSocketChanged], [handleError], [handleBoardConfigChange])
    appear as entry points of their own. *)

From Stdlib Require Import ZArith String List Bool Lia.
From stdpp Require Import base decidable option list strings gmap.

Local Open Scope Z_scope.

(* ------------------------------------------------------------------ *)
(** * Protocol types *)

(** Modelled from the spec: the declaration of [Status] is not among the
    sources.  The spec gives the tri-state {Connected, AlreadyConnected,
    NotConnected} and records that [connect()] stores the boolean
    [Status.isOK(...)] in a [Status] slot; [Coerced b] is that boolean.
    [isOK] is truthiness: the OK status and [true] are OK. *)
Module Status.
Inductive t : Type :=
  | OK
  | NOT_CONNECTED
  | ALREADY_CONNECTED
  | Coerced (b : bool).

Definition isOK (s : t) : bool :=
    match s with
    | OK => true
    | Coerced b => b
    | NOT_CONNECTED | ALREADY_CONNECTED => false
    end.

#[global] Instance eq_dec : EqDecision t.
Proof. solve_decision. Defined.
End Status.

Module Serial.
(** [Serial.Type]: the logical consumers of the serial connection. *)
Inductive Type_ : Type := Monitor | Plotter.

#[global] Instance eq_dec : EqDecision Type_.
Proof. solve_decision. Defined.

(** [Serial.State]: which consumers are wanted, in the order opened. *)
Definition State : Type := list Type_.
End Serial.

(** [Partial<SerialConfig>]: every field may be [undefined] ([None]).
    [Board] and [Port] stand for JavaScript object references, so equality
    on them is the strict (in)equality [!==] of the source. *)
Record SerialConfig (Board Port : Type) : Type := mkConfig {
  board : option Board;
  port : option Port;
  baudRate : option Z
}.
Arguments mkConfig {Board Port} _ _ _.
Arguments board {Board Port} _.
Arguments port {Board Port} _.
Arguments baudRate {Board Port} _.

#[global] Instance SerialConfig_eq_dec {Board Port : Type}
  `{EqDecision Board} `{EqDecision Port} : EqDecision (SerialConfig Board Port).
Proof. solve_decision. Defined.

Module SerialError.
Inductive ErrorCodes : Type :=
  | CLIENT_CANCEL
  | DEVICE_BUSY
  | DEVICE_NOT_CONFIGURED.

(** [code] is [None] for the [case undefined] of the handler. *)
Record t (Board Port : Type) : Type := mk {
    code : option ErrorCodes;
    config : SerialConfig Board Port
  }.
Arguments mk {Board Port} _ _.
Arguments code {Board Port} _.
Arguments config {Board Port} _.
End SerialError.

(** The backend serial service, reached over RPC.  Its implementation is
    not part of the embedded sources, so it is a parameter: a state
    ([session]) and the three calls the coordinator makes on it. *)
Module SerialService.
Record t (Board Port : Type) : Type := mk {
    session : Type;
    isSerialPortOpen : session -> bool;
    connect : SerialConfig Board Port -> session -> Status.t * session;
    disconnect : session -> Status.t * session
  }.
Arguments mk {Board Port} _ _ _ _.
Arguments session {Board Port} _.
Arguments isSerialPortOpen {Board Port} _ _.
Arguments connect {Board Port} _ _ _.
Arguments disconnect {Board Port} _ _.
End SerialService.

(** [SerialModel]: the values shared with the monitor and plotter views. *)
Record SerialModel : Type := mkModel {
  model_baudRate : Z;
  model_lineEnding : string;
  model_interpolate : bool
}.

(** The browser [WebSocket] opened on [ws://localhost:<port>]. *)
Record WebSocket : Type := mkWebSocket { ws_port : Z }.

(** User-facing notifications, by localisation key or literal text. *)
Inductive Severity : Type := SevInfo | SevWarn | SevError.

Inductive MessageKey : Type :=
| SelectBoardAndPort        (* 'Please select a board and a port ...' *)
| CannotOpenWhenUploading   (* 'Cannot open serial port when uploading' *)
| ConnectionBusy            (* arduino/serial/connectionBusy *)
| Disconnected              (* arduino/serial/disconnected *)
| UnexpectedError           (* arduino/serial/unexpectedError *)
| FailedReconnect           (* arduino/serial/failedReconnect *)
| Reconnect (attempts : Z)  (* arduino/serial/reconnect, with {2} *)
| CouldNotOpenPlotter.      (* 'Couldn't open serial plotter' *)

(** Initial configuration handed to a new plotter window (the fields
    that come from the state embedded here). *)
Record PlotterInit : Type := mkInit {
  init_currentBaudrate : Z;
  init_currentLineEnding : string;
  init_wsPort : Z;
  init_interpolate : bool;
  init_connected : bool
}.

(** Calls on collaborators, in the order they are made. *)
Inductive Event (Board Port : Type) : Type :=
| BackendConnect (c : SerialConfig Board Port)
| BackendDisconnect
| UpdateWsConfigParam (currentBaudrate : option Z) (serialPort : option string)
| SendMessageToSerial (payload : string)
| Notify (sev : Severity) (key : MessageKey)
| SetTimeout (id : nat) (ms : Z)
| ClearTimeout (id : nat)
| WebSocketOpen (p : Z)
| WebSocketClose (p : Z)
| WindowFocus (h : nat)
| WindowOpen (init : PlotterInit).
Arguments BackendConnect {Board Port} _.
Arguments BackendDisconnect {Board Port}.
Arguments UpdateWsConfigParam {Board Port} _ _.
Arguments SendMessageToSerial {Board Port} _.
Arguments Notify {Board Port} _ _.
Arguments SetTimeout {Board Port} _ _.
Arguments ClearTimeout {Board Port} _.
Arguments WebSocketOpen {Board Port} _.
Arguments WebSocketClose {Board Port} _.
Arguments WindowFocus {Board Port} _.
Arguments WindowOpen {Board Port} _.


(* ------------------------------------------------------------------ *)
(** * SerialConnectionManager *)

Module SerialConnectionManager.
Section Manager.

Context {Board Port : Type} `{EqDecision Board} `{EqDecision Port}.

(** [port.address]; the declaration of [Port] is outside the sources. *)
Variable address : Port -> string.

(** The injected backend service. *)
Variable serialService : SerialService.t Board Port.

(** [new WebSocket(url)] for a relay port: [None] when the constructor
    throws (the [catch] branch of [createWsConnection]). *)
Variable newWebSocket : Z -> option WebSocket.

#[local] Abbreviation Config := (SerialConfig Board Port).
#[local] Abbreviation Error := (SerialError.t Board Port).
#[local] Abbreviation Ev := (Event Board Port).

(** The fields of the manager, followed by the state of its
    collaborators: the backend session, [CoreServiceImpl.uploading] (read
    through [core.isUploading()]), the pending browser timers with the
    next timer id, and the trace. *)
Record World : Type := mkWorld {
  _state : Serial.State;
  config : Config;
  serialErrors : list Error;
  reconnectTimeout : option nat;
  wsPort : option Z;
  webSocket : option WebSocket;
  serialModel : SerialModel;
  backend : SerialService.session serialService;
  uploading : bool;
  timers : list (nat * Z);
  nextTimer : nat;
  trace : list Ev
}.

Definition set__state (v : Serial.State) (w : World) : World :=
  mkWorld v (config w) (serialErrors w) (reconnectTimeout w) (wsPort w)
    (webSocket w) (serialModel w) (backend w) (uploading w) (timers w)
    (nextTimer w) (trace w).

Definition set_config (v : Config) (w : World) : World :=
  mkWorld (_state w) v (serialErrors w) (reconnectTimeout w) (wsPort w)
    (webSocket w) (serialModel w) (backend w) (uploading w) (timers w)
    (nextTimer w) (trace w).

Definition set_serialErrors (v : list Error) (w : World) : World :=
  mkWorld (_state w) (config w) v (reconnectTimeout w) (wsPort w)
    (webSocket w) (serialModel w) (backend w) (uploading w) (timers w)
    (nextTimer w) (trace w).

Definition set_reconnectTimeout (v : option nat) (w : World) : World :=
  mkWorld (_state w) (config w) (serialErrors w) v (wsPort w)
    (webSocket w) (serialModel w) (backend w) (uploading w) (timers w)
    (nextTimer w) (trace w).

Definition set_wsPort (v : option Z) (w : World) : World :=
  mkWorld (_state w) (config w) (serialErrors w) (reconnectTimeout w) v
    (webSocket w) (serialModel w) (backend w) (uploading w) (timers w)
    (nextTimer w) (trace w).

Definition set_webSocket (v : option WebSocket) (w : World) : World :=
  mkWorld (_state w) (config w) (serialErrors w) (reconnectTimeout w)
    (wsPort w) v (serialModel w) (backend w) (uploading w) (timers w)
    (nextTimer w) (trace w).

Definition set_backend (v : SerialService.session serialService)
    (w : World) : World :=
  mkWorld (_state w) (config w) (serialErrors w) (reconnectTimeout w)
    (wsPort w) (webSocket w) (serialModel w) v (uploading w) (timers w)
    (nextTimer w) (trace w).

Definition set_timers (v : list (nat * Z)) (n : nat) (w : World) : World :=
  mkWorld (_state w) (config w) (serialErrors w) (reconnectTimeout w)
    (wsPort w) (webSocket w) (serialModel w) (backend w) (uploading w) v
    n (trace w).

Definition set_trace (v : list Ev) (w : World) : World :=
  mkWorld (_state w) (config w) (serialErrors w) (reconnectTimeout w)
    (wsPort w) (webSocket w) (serialModel w) (backend w) (uploading w)
    (timers w) (nextTimer w) v.

(** ** The state monad of the coordinator *)

Definition M (A : Type) : Type := World -> A * World.

Definition ret {A : Type} (a : A) : M A := fun w => (a, w).

Definition bind {A B : Type} (m : M A) (k : A -> M B) : M B :=
  fun w => match m w with (a, w') => k a w' end.

#[local] Notation "'do' x <- m ; k" := (bind m (fun x => k))
  (at level 10, x name, m at level 100, k at level 200).
#[local] Notation "m ;; k" := (bind m (fun _ => k))
  (at level 100, k at level 200, right associativity).

Definition gets {A : Type} (f : World -> A) : M A := fun w => (f w, w).

Definition modify (f : World -> World) : M unit := fun w => (tt, f w).

Definition emit (e : Ev) : M unit :=
  modify (fun w => set_trace (trace w ++ [e]) w).

Definition exec {A : Type} (m : M A) (w : World) : World := snd (m w).

Definition eval {A : Type} (m : M A) (w : World) : A := fst (m w).

(** The events an operation adds to the trace. *)
Definition emits {A : Type} (m : M A) (w : World) (evs : list Ev) : Prop :=
  trace (exec m w) = trace w ++ evs.

(** ** Calls on collaborators *)

Definition serialService_isSerialPortOpen : M bool :=
  gets (fun w => SerialService.isSerialPortOpen serialService (backend w)).

Definition serialService_connect (c : Config) : M Status.t :=
  fun w =>
    match SerialService.connect serialService c (backend w) with
    | (status, b) =>
        (status, set_trace (trace w ++ [BackendConnect c]) (set_backend b w))
    end.

Definition serialService_disconnect : M Status.t :=
  fun w =>
    match SerialService.disconnect serialService (backend w) with
    | (status, b) =>
        (status, set_trace (trace w ++ [BackendDisconnect]) (set_backend b w))
    end.

Definition core_isUploading : M bool := gets uploading.

Definition messageService (sev : Severity) (key : MessageKey) : M unit :=
  emit (Notify sev key).

(** [window.setTimeout]: a fresh id, the timer becomes pending. *)
Definition setTimeout (ms : Z) : M nat :=
  fun w =>
    let id := nextTimer w in
    (id, set_trace (trace w ++ [SetTimeout id ms])
           (set_timers (timers w ++ [(id, ms)]) (S id) w)).

(** [window.clearTimeout]: the timer, if still pending, is dropped. *)
Definition clearTimeout (id : nat) : M unit :=
  fun w =>
    (tt, set_trace (trace w ++ [ClearTimeout id])
           (set_timers (filter (fun t => fst t <> id) (timers w))
              (nextTimer w) w)).

(** ** The methods *)

(** [isSerialConfig]: all three fields truthy. *)
Definition isSerialConfig (c : Config) : bool :=
  match board c, baudRate c, port c with
  | Some _, Some b, Some _ => negb (b =? 0)
  | _, _, _ => false
  end.

(** [widgetsAttached(state)] *)
Definition widgetsAttached (s : Serial.State) : bool :=
  match s with [] => false | _ :: _ => true end.

(** The keys of [this.config], in insertion order. *)
Inductive Key : Type := KBoard | KPort | KBaudRate.

Definition keys : list Key := [KBoard; KPort; KBaudRate].

(** [newConfig[key] !== this.config[key]] *)
Definition differs (k : Key) (newConfig cur : Config) : bool :=
  match k with
  | KBoard => negb (bool_decide (board newConfig = board cur))
  | KPort => negb (bool_decide (port newConfig = port cur))
  | KBaudRate => negb (bool_decide (baudRate newConfig = baudRate cur))
  end.

(** [{ ...this.config, [key]: newConfig[key] }] *)
Definition assign (k : Key) (newConfig cur : Config) : Config :=
  match k with
  | KBoard => mkConfig (board newConfig) (port cur) (baudRate cur)
  | KPort => mkConfig (board cur) (port newConfig) (baudRate cur)
  | KBaudRate => mkConfig (board cur) (port cur) (baudRate newConfig)
  end.

(** The body of the [forEach] of [setConfig], on the pair
    ([configHasChanged], [this.config]). *)
Definition mergeKey (newConfig : Config) (acc : bool * Config) (k : Key)
    : bool * Config :=
  if differs k newConfig (snd acc)
  then (true, assign k newConfig (snd acc))
  else acc.

Definition merge (newConfig cur : Config) : bool * Config :=
  fold_left (mergeKey newConfig) keys (false, cur).

Definition connect : M Status.t :=
  do isOpen <- serialService_isSerialPortOpen;
  if isOpen then ret Status.ALREADY_CONNECTED
  else
    do c <- gets config;
    if negb (isSerialConfig c) then ret Status.NOT_CONNECTED
    else
      do connectStatus <- serialService_connect c;
      ret (Status.Coerced (Status.isOK connectStatus)).

Definition disconnect : M Status.t :=
  do isOpen <- serialService_isSerialPortOpen;
  if negb isOpen then ret Status.OK
  else
    do status <- serialService_disconnect;
    (if Status.isOK status then modify (set_wsPort None) else ret tt);;
    ret status.

Definition setConfig (newConfig : Config) : M unit :=
  do cur <- gets config;
  let merged := merge newConfig cur in
  modify (set_config (snd merged));;
  do attached <- gets (fun w => widgetsAttached (_state w));
  do isUploading <- core_isUploading;
  if fst merged && attached && negb isUploading
  then
    do c <- gets config;
    emit (UpdateWsConfigParam (baudRate c) (address <$> port c));;
    disconnect;;
    connect;;
    ret tt
  else ret tt.

Definition getConfig : M Config := gets config.

Definition getWsPort : M (option Z) := gets wsPort.

(** [!!this.webSocket?.url] *)
Definition isWebSocketConnected : M bool :=
  gets (fun w => match webSocket w with Some _ => true | None => false end).

Definition handleWebSocketChanged (p : Z) : M unit :=
  modify (set_wsPort (Some p)).

Definition createWsConnection : M bool :=
  do p <- gets wsPort;
  match p with
  | Some n =>
      if n =? 0 then ret false
      else
        match newWebSocket n with
        | Some ws =>
            emit (WebSocketOpen n);;
            modify (set_webSocket (Some ws));;
            ret true
        | None => ret false
        end
  | None => ret false
  end.

Definition setState (newState : Serial.State) : M Status.t :=
  do oldState <- gets _state;
  if widgetsAttached oldState && negb (widgetsAttached newState)
  then
    do status <- disconnect;
    modify (set__state newState);;
    ret status
  else if negb (widgetsAttached oldState) && widgetsAttached newState
  then
    do isUploading <- core_isUploading;
    if isUploading
    then
      messageService SevError CannotOpenWhenUploading;;
      ret Status.NOT_CONNECTED
    else
      do status <- connect;
      modify (set__state newState);;
      ret status
  else
    modify (set__state newState);;
    ret Status.OK.

Definition isBESerialConnected : M bool := serialService_isSerialPortOpen.

(** [state.includes(type)] *)
Definition includes (ty : Serial.Type_) (s : Serial.State) : bool :=
  bool_decide (ty ∈ s).

(** [state.indexOf(type)], [None] for [-1]. *)
Fixpoint indexOf (ty : Serial.Type_) (s : Serial.State) : option nat :=
  match s with
  | [] => None
  | x :: s' =>
      if decide (x = ty) then Some O
      else match indexOf ty s' with Some i => Some (S i) | None => None end
  end.

(** [newState.splice(index, 1)] *)
Fixpoint splice1 (index : nat) (s : Serial.State) : Serial.State :=
  match s, index with
  | [], _ => []
  | _ :: s', O => s'
  | x :: s', S i => x :: splice1 i s'
  end.

Definition openSerial (ty : Serial.Type_) : M Status.t :=
  do c <- gets config;
  if negb (isSerialConfig c)
  then
    messageService SevError SelectBoardAndPort;;
    ret Status.NOT_CONNECTED
  else
    do st <- gets _state;
    if includes ty st then ret Status.OK
    else
      let newState := st ++ [ty] in
      do status <- setState newState;
      (if Status.isOK status && bool_decide (ty = Serial.Monitor)
       then createWsConnection;; ret tt
       else ret tt);;
      ret status.

Definition closeSerial (ty : Serial.Type_) : M Status.t :=
  do st <- gets _state;
  match indexOf ty st with
  | Some index =>
      let newState := splice1 index st in
      do status <- setState newState;
      do ws <- gets webSocket;
      (match ws with
       | Some sock =>
           if Status.isOK status && bool_decide (ty = Serial.Monitor)
           then
             emit (WebSocketClose (ws_port sock));;
             modify (set_webSocket None)
           else ret tt
       | None => ret tt
       end);;
      ret status
  | None => ret Status.OK
  end.

(** The [switch (code)] of [handleError]. *)
Definition classify (error : Error) : M unit :=
  match SerialError.code error with
  | Some SerialError.CLIENT_CANCEL => ret tt
  | Some SerialError.DEVICE_BUSY =>
      messageService SevWarn ConnectionBusy;;
      modify (fun w => set_serialErrors (serialErrors w ++ [error]) w)
  | Some SerialError.DEVICE_NOT_CONFIGURED =>
      messageService SevInfo Disconnected
  | None => messageService SevError UnexpectedError
  end.

Definition handleError (error : Error) : M unit :=
  do isOpen <- serialService_isSerialPortOpen;
  if negb isOpen then ret tt
  else
    classify error;;
    do attached <- gets (fun w => widgetsAttached (_state w));
    if attached
    then
      do errs <- gets serialErrors;
      if (10 <=? length errs)%nat
      then
        messageService SevWarn FailedReconnect;;
        modify (set_serialErrors [])
      else
        let attempts :=
          if (length errs =? 0)%nat then 1 else Z.of_nat (length errs) in
        do previous <- gets reconnectTimeout;
        (match previous with
         | Some id => clearTimeout id
         | None => ret tt
         end);;
        let timeout := attempts * 1000 in
        messageService SevWarn (Reconnect attempts);;
        do id <- setTimeout timeout;
        modify (set_reconnectTimeout (Some id))
    else ret tt.

Definition send (data : string) : M Status.t :=
  do isOpen <- serialService_isSerialPortOpen;
  if negb isOpen then ret Status.NOT_CONNECTED
  else
    do eol <- gets (fun w => model_lineEnding (serialModel w));
    emit (SendMessageToSerial (data ++ eol));;
    ret Status.OK.

(** [handleBoardConfigChange], from the selected board and port. *)
Definition handleBoardConfigChange (selectedBoard : option Board)
    (selectedPort : option Port) : M unit :=
  do baud <- gets (fun w => model_baudRate (serialModel w));
  setConfig (mkConfig selectedBoard selectedPort (Some baud)).

(** The callback of the reconnect timer: [() => this.connect()], run
    when the pending timer [id] expires. *)
Definition timerFires (id : nat) : M unit :=
  do pending <- gets timers;
  if bool_decide (id ∈ map fst pending)
  then
    modify (fun w =>
      set_timers (filter (fun t => fst t <> id) (timers w)) (nextTimer w) w);;
    connect;;
    ret tt
  else ret tt.

(** The entry points through which the coordinator is driven: its
    public methods, the callbacks it registers, and its timer. *)
Inductive Op : Type :=
| OpSetConfig (newConfig : Config)
| OpOpenSerial (ty : Serial.Type_)
| OpCloseSerial (ty : Serial.Type_)
| OpHandleError (error : Error)
| OpConnect
| OpDisconnect
| OpSend (data : string)
| OpWebSocketChanged (p : Z)
| OpBoardConfigChange (selectedBoard : option Board)
    (selectedPort : option Port)
| OpTimerFires (id : nat).

Definition perform (op : Op) : M unit :=
  match op with
  | OpSetConfig newConfig => setConfig newConfig
  | OpOpenSerial ty => openSerial ty;; ret tt
  | OpCloseSerial ty => closeSerial ty;; ret tt
  | OpHandleError error => handleError error
  | OpConnect => connect;; ret tt
  | OpDisconnect => disconnect;; ret tt
  | OpSend data => send data;; ret tt
  | OpWebSocketChanged p => handleWebSocketChanged p
  | OpBoardConfigChange b p => handleBoardConfigChange b p
  | OpTimerFires id => timerFires id
  end.

(** The backend calls among a list of events. *)
Definition isBackendCall (ev : Ev) : bool :=
  match ev with
  | BackendConnect _ | BackendDisconnect => true
  | _ => false
  end.

Definition backendCalls (evs : list Ev) : list Ev :=
  List.filter isBackendCall evs.

Definition isNotification (ev : Ev) : bool :=
  match ev with
  | Notify _ _ => true
  | _ => false
  end.

(** The field initialisers of the class: nothing wanted, an empty
    configuration, no error recorded, no timer, relay port or socket. *)
Definition new (model : SerialModel)
    (b : SerialService.session serialService) : World :=
  mkWorld [] (mkConfig None None None) [] None None None model b false
    [] 1%nat [].

End Manager.

Arguments _state {Board Port serialService} _.
Arguments config {Board Port serialService} _.
Arguments serialErrors {Board Port serialService} _.
Arguments reconnectTimeout {Board Port serialService} _.
Arguments wsPort {Board Port serialService} _.
Arguments webSocket {Board Port serialService} _.
Arguments serialModel {Board Port serialService} _.
Arguments backend {Board Port serialService} _.
Arguments uploading {Board Port serialService} _.
Arguments timers {Board Port serialService} _.
Arguments nextTimer {Board Port serialService} _.
Arguments trace {Board Port serialService} _.
Arguments mkWorld {Board Port serialService} _ _ _ _ _ _ _ _ _ _ _ _.
Arguments exec {Board Port serialService A} _ _.
Arguments eval {Board Port serialService A} _ _.
Arguments emits {Board Port serialService A} _ _ _.
Arguments OpSetConfig {Board Port} _.
Arguments OpOpenSerial {Board Port} _.
Arguments OpCloseSerial {Board Port} _.
Arguments OpHandleError {Board Port} _.
Arguments OpConnect {Board Port}.
Arguments OpDisconnect {Board Port}.
Arguments OpSend {Board Port} _.
Arguments OpWebSocketChanged {Board Port} _.
Arguments OpBoardConfigChange {Board Port} _ _.
Arguments OpTimerFires {Board Port} _.
Arguments isBackendCall {Board Port} _.
Arguments backendCalls {Board Port} _.
Arguments isNotification {Board Port} _.

End SerialConnectionManager.


(* ------------------------------------------------------------------ *)
(** * PlotterFrontendContribution *)

Module PlotterFrontendContribution.
Section Plotter.

Context {Board Port : Type} `{EqDecision Board} `{EqDecision Port}.
Variable serialService : SerialService.t Board Port.
Variable newWebSocket : Z -> option WebSocket.

#[local] Abbreviation World := (SerialConnectionManager.World serialService).

(** [window] is the handle of the plotter window ([None] for [null]);
    [serialConnection] is the injected manager with its world. *)
Record Contribution : Type := mkContribution {
  window : option nat;
  serialConnection : World
}.

Definition P (A : Type) : Type := Contribution -> A * Contribution.

(** A call on [this.serialConnection]. *)
Definition call {A : Type} (m : SerialConnectionManager.M serialService A)
    : P A :=
  fun c =>
    match m (serialConnection c) with
    | (a, w) => (a, mkContribution (window c) w)
    end.

Definition set_window (h : option nat) : P unit :=
  fun c => (tt, mkContribution h (serialConnection c)).

(** [open(wsPort)]; [opened] is what [window.open] returns. *)
Definition open (p : Z) (opened : option nat) : P unit :=
  fun c =>
    match call (SerialConnectionManager.isBESerialConnected serialService) c
    with
    | (connected, c1) =>
        let model := SerialConnectionManager.serialModel (serialConnection c1) in
        let init :=
          mkInit (model_baudRate model) (model_lineEnding model) p
            (model_interpolate model) connected in
        match call (SerialConnectionManager.emit serialService
                      (WindowOpen init)) c1 with
        | (_, c2) => set_window opened c2
        end
    end.

(** The [else] branch of [connect()].  [closeSerial(Plotter)] is called
    and not awaited: it runs up to its first [await], which on the path
    that disconnects is the one of [isSerialPortOpen()], so that
    [messageService.error] is called before the backend is asked to
    disconnect; the rest of [closeSerial] follows.  On the paths of
    [closeSerial] that call no collaborator, [_state] is assigned before
    the message is sent; the two do not touch the same field, and the
    world reached is the same. *)
Definition couldNotOpen : P unit :=
  fun c =>
    match call (SerialConnectionManager.messageService serialService
                  SevError CouldNotOpenPlotter) c with
    | (_, c1) =>
        match call (SerialConnectionManager.closeSerial serialService
                      Serial.Plotter) c1 with
        | (_, c2) => (tt, c2)
        end
    end.

(** [connect()]; [opened] is what [window.open] would return.
    [this.open(wsPort)] is not awaited and is the last statement of its
    branch: it is run to completion where it is called. *)
Definition connect (opened : option nat) : P unit :=
  fun c =>
    match window c with
    | Some h =>
        call (SerialConnectionManager.emit serialService (WindowFocus h)) c
    | None =>
        match call (SerialConnectionManager.openSerial serialService
                      newWebSocket Serial.Plotter) c with
        | (status, c1) =>
            match call (SerialConnectionManager.getWsPort serialService) c1
            with
            | (Some p, c2) =>
                if Status.isOK status && negb (p =? 0)
                then open p opened c2
                else couldNotOpen c2
            | (None, c2) => couldNotOpen c2
            end
        end
    end.

(** The handler of ['CLOSE_CHILD_WINDOW']. *)
Definition onCloseChildWindow : P unit :=
  fun c =>
    match window c with
    | Some _ =>
        match set_window None c with
        | (_, c1) =>
            match call (SerialConnectionManager.closeSerial serialService
                          Serial.Plotter) c1 with
            | (_, c2) => (tt, c2)
            end
        end
    | None => (tt, c)
    end.

End Plotter.

Arguments window {Board Port serialService} _.
Arguments serialConnection {Board Port serialService} _.
Arguments mkContribution {Board Port serialService} _ _.

End PlotterFrontendContribution.

(* ------------------------------------------------------------------ *)
(** * CoreServiceImpl: upload and burn-bootloader *)

Module CoreServiceImpl.

(** How an awaited promise settles. *)
Inductive Settled : Type := Resolves | Rejects.

(** One ['data'] event of a response stream, with what
    [getOutStream_asU8] and [getErrStream_asU8] hold as strings. *)
Record Response : Type := mkResponse {
  outStream : string;
  errStream : string
}.

(** What is appended to the output channel: the chunks streamed from the
    command-line tool, and the notices of the service itself. *)
Inductive Output : Type :=
| Chunk (text : string)
| CompilationComplete
| CompilationError
| TaskComplete (task : string)
| TaskError (task : string)
| BootloaderError.

(** [uploading] is the field of the class; [uploadInProgress] is the
    flag it sets on the injected serial service. *)
Record t : Type := mk {
  uploading : bool;
  uploadInProgress : bool;
  output : list Output
}.

(** The awaited collaborators of one call, in program order: the core
    client and the response stream of [compile], the backend
    [serialService.disconnect()], the core client of the upload itself
    (with the request built from it), and the response stream.  A
    response stream delivers its ['data'] events and then settles the
    awaited promise: ['end'] resolves it, ['error'] rejects it. *)
Record Awaits : Type := mkAwaits {
  compile_client : Settled;
  compile_data : list Response;
  compile_stream : Settled;
  serial_disconnect : Settled;
  core_client : Settled;
  result_data : list Response;
  result_stream : Settled
}.

Definition appendToOutput (o : Output) (s : t) : t :=
  mk (uploading s) (uploadInProgress s) (output s ++ [o]).

(** The ['data'] handler of a response stream: the out chunk, then the
    err chunk, are appended to the output. *)
Definition onData (resp : Response) (s : t) : t :=
  appendToOutput (Chunk (errStream resp))
    (appendToOutput (Chunk (outStream resp)) s).

(** The handler run on the events of a stream, in the order delivered. *)
Definition receive (events : list Response) (s : t) : t :=
  fold_left (fun acc resp => onData resp acc) events s.

(** The chunks that the events of a stream hold, in the order appended. *)
Definition chunks (events : list Response) : list Output :=
  flat_map (fun resp => [Chunk (outStream resp); Chunk (errStream resp)])
    events.

Definition set_flags (b : bool) (s : t) : t := mk b b (output s).

Definition isUploading (s : t) : bool := uploading s.

Definition compile (a : Awaits) (s : t) : Settled * t :=
  match compile_client a with
  | Rejects => (Rejects, s)
  | Resolves =>
      let s1 := receive (compile_data a) s in
      match compile_stream a with
      | Resolves => (Resolves, appendToOutput CompilationComplete s1)
      | Rejects => (Rejects, appendToOutput CompilationError s1)
      end
  end.

Definition doUpload (task : string) (a : Awaits) (s : t) : Settled * t :=
  match compile a s with
  | (Rejects, s1) => (Rejects, s1)
  | (Resolves, s1) =>
      let s2 := set_flags true s1 in
      match serial_disconnect a with
      | Rejects => (Rejects, s2)
      | Resolves =>
          match core_client a with
          | Rejects => (Rejects, s2)
          | Resolves =>
              let s3 := receive (result_data a) s2 in
              match result_stream a with
              | Resolves =>
                  (Resolves, set_flags false (appendToOutput (TaskComplete task) s3))
              | Rejects =>
                  (Rejects, set_flags false (appendToOutput (TaskError task) s3))
              end
          end
      end
  end.

Definition upload (a : Awaits) (s : t) : Settled * t :=
  doUpload "upload" a s.

Definition uploadUsingProgrammer (a : Awaits) (s : t) : Settled * t :=
  doUpload "upload using programmer" a s.

Definition burnBootloader (a : Awaits) (s : t) : Settled * t :=
  let s1 := set_flags true s in
  match serial_disconnect a with
  | Rejects => (Rejects, s1)
  | Resolves =>
      match core_client a with
      | Rejects => (Rejects, s1)
      | Resolves =>
          let s2 := receive (result_data a) s1 in
          match result_stream a with
          | Resolves => (Resolves, set_flags false s2)
          | Rejects =>
              (Rejects, set_flags false (appendToOutput BootloaderError s2))
          end
      end
  end.

End CoreServiceImpl.

(* ------------------------------------------------------------------ *)
(** * CoreServiceImpl: source overrides of a compile request *)

Module SourceOverrides.
Section Merge.

(** [FileUri.fsPath] and [path.relative], both outside the sources. *)
Variable fsPath : string -> string.
Variable relative : string -> string -> string.

(** A string is truthy when it is not empty. *)
Definition truthy (content : string) : bool :=
  negb (bool_decide (content = EmptyString)).

(** One turn of the loop over [Object.keys(options.sourceOverride)]: the
    override [uri -> content] applied to the map of the request. *)
Definition mergeOne (sketchPath : string) (m : gmap string string)
    (override : string * string) : gmap string string :=
  let (uri, content) := override in
  if truthy content
  then <[relative sketchPath (fsPath uri) := content]> m
  else m.

(** [mergeSourceOverrides(req, options)]: [sourceOverride] is the object
    as the list of its entries in key order, [m] the map
    [req.getSourceOverrideMap()]. *)
Definition mergeSourceOverrides (sketchUri : string)
    (sourceOverride : list (string * string)) (m : gmap string string)
    : gmap string string :=
  let sketchPath := fsPath sketchUri in
  fold_left (mergeOne sketchPath) sourceOverride m.

End Merge.
End SourceOverrides.

(* ------------------------------------------------------------------ *)
(** * WebSocketServiceImpl *)

Module WebSocketServiceImpl.

(** A client socket, by identity: [indexOf] compares references. *)
Definition Client : Type := nat.

(** What the service fires and what it asks of its clients. *)
Inductive Event : Type :=
| ConnectedClients (n : nat)              (* onConnectedClients.fire(n) *)
| Message (data : string)                 (* onMessage.fire(data) *)
| Sent (ws : Client) (message : string)   (* w.send(message) returned *)
| Closed (ws : Client).                   (* w.send threw: w.close() *)

Record t : Type := mk {
  wsClients : list Client;
  fired : list Event
}.

(** The constructor: no client yet. *)
Definition new : t := mk [] [].

(** [Array.prototype.indexOf], with [-1] when absent. *)
Fixpoint indexOf (ws : Client) (l : list Client) : Z :=
  match l with
  | [] => -1
  | x :: l' =>
      if decide (x = ws) then 0
      else
        let i := indexOf ws l' in
        if i <? 0 then -1 else i + 1
  end.

(** [l.splice(start, 1)]: a negative [start] counts from the end, and at
    most one element, the one at the resulting position, is removed. *)
Definition splice1 (start : Z) (l : list Client) : list Client :=
  let len := Z.of_nat (length l) in
  let from :=
    if start <? 0 then Z.max (len + start) 0 else Z.min start len in
  delete (Z.to_nat from) l.

Definition fire (e : Event) (s : t) : t := mk (wsClients s) (fired s ++ [e]).

Definition addClient (ws : Client) (s : t) : t :=
  let clients := wsClients s ++ [ws] in
  mk clients (fired s ++ [ConnectedClients (length clients)]).

(** The [ws.onclose] handler installed by [addClient]. *)
Definition onclose (ws : Client) (s : t) : t :=
  let clients := splice1 (indexOf ws (wsClients s)) (wsClients s) in
  mk clients (fired s ++ [ConnectedClients (length clients)]).

(** The [ws.onmessage] handler installed by [addClient]. *)
Definition onmessage (data : string) (s : t) : t := fire (Message data) s.

Definition getConnectedClientsNumber (s : t) : nat := length (wsClients s).

(** [sendMessage(message)]; [throws w] tells whether [w.send] throws, in
    which case the client is asked to close.  The close itself is
    reported later, through [onclose]. *)
Definition sendMessage (throws : Client -> bool) (message : string)
    (s : t) : t :=
  fold_left
    (fun acc w => fire (if throws w then Closed w else Sent w message) acc)
    (wsClients s) s.

(** The entry points of the service. *)
Inductive Op : Type :=
| OpAddClient (ws : Client)
| OpClose (ws : Client)
| OpMessage (data : string)
| OpSendMessage (throws : Client -> bool) (message : string).

Definition perform (op : Op) (s : t) : t :=
  match op with
  | OpAddClient ws => addClient ws s
  | OpClose ws => onclose ws s
  | OpMessage data => onmessage data s
  | OpSendMessage throws message => sendMessage throws message s
  end.

Definition performAll (ops : list Op) (s : t) : t :=
  fold_left (fun acc op => perform op acc) ops s.

(** The number of clients last announced to the listeners, [0] when none
    was announced. *)
Definition announced (evs : list Event) : nat :=
  fold_left
    (fun n e => match e with ConnectedClients k => k | _ => n end) evs 0%nat.

End WebSocketServiceImpl.

(* ------------------------------------------------------------------ *)
(** * Concrete collaborators and worlds

    Used to run the embedding on examples: boards and ports named by
    strings, two backends, and a coordinator brought up step by step. *)

Module Fixtures.

Definition Board : Type := string.
Definition Port : Type := string.

Definition address (p : Port) : string := p.

(** A backend that opens on [connect] and closes on [disconnect]. *)
Definition reliable : SerialService.t Board Port :=
  SerialService.mk bool
    (fun isOpen => isOpen)
    (fun _ isOpen =>
       if isOpen then (Status.ALREADY_CONNECTED, true) else (Status.OK, true))
    (fun isOpen =>
       if isOpen then (Status.OK, false) else (Status.NOT_CONNECTED, false)).

(** A backend that cannot dispose its connection: [disconnect] reports a
    failure and the port stays open. *)
Definition stuck : SerialService.t Board Port :=
  SerialService.mk bool
    (fun isOpen => isOpen)
    (fun _ isOpen =>
       if isOpen then (Status.ALREADY_CONNECTED, true) else (Status.OK, true))
    (fun isOpen => (Status.NOT_CONNECTED, isOpen)).

(** A backend that refuses every [connect]. *)
Definition busy : SerialService.t Board Port :=
  SerialService.mk bool
    (fun isOpen => isOpen)
    (fun _ isOpen => (Status.NOT_CONNECTED, isOpen))
    (fun isOpen => (Status.OK, false)).

Definition newWebSocket (p : Z) : option WebSocket := Some (mkWebSocket p).

Definition LF : string := String (Ascii.ascii_of_nat 10) EmptyString.

Definition model : SerialModel := mkModel 9600 LF false.

Definition uno : SerialConfig Board Port :=
  mkConfig (Some "arduino:avr:uno") (Some "/dev/ttyACM0") (Some 9600).

Definition busyError : SerialError.t Board Port :=
  SerialError.mk (Some SerialError.DEVICE_BUSY) uno.

(** Run a list of operations one after the other. *)
Definition run {svc : SerialService.t Board Port}
    (ops : list (SerialConnectionManager.M svc unit))
    (w : SerialConnectionManager.World svc) : SerialConnectionManager.World svc :=
  fold_left (fun acc op => SerialConnectionManager.exec op acc) ops w.

Definition ignore {svc : SerialService.t Board Port} {A : Type}
    (m : SerialConnectionManager.M svc A) : SerialConnectionManager.M svc unit :=
  SerialConnectionManager.bind svc m (fun _ => SerialConnectionManager.ret svc tt).

(** The coordinator after start-up, a board selection, and the plotter
    opened: the backend session is open and the relay port 8080 has been
    advertised. *)
Definition plotting (svc : SerialService.t Board Port)
    (b : SerialService.session svc) : SerialConnectionManager.World svc :=
  run [ SerialConnectionManager.setConfig address svc uno;
        ignore (SerialConnectionManager.openSerial svc newWebSocket Serial.Plotter);
        SerialConnectionManager.handleWebSocketChanged svc 8080 ]
      (SerialConnectionManager.new svc model b).

(** The coordinator with a board selected and nothing opened. *)
Definition idle (svc : SerialService.t Board Port)
    (b : SerialService.session svc) : SerialConnectionManager.World svc :=
  run [ SerialConnectionManager.setConfig address svc uno ]
      (SerialConnectionManager.new svc model b).

(** The same with the monitor opened as well: the relay socket exists. *)
Definition monitoring (svc : SerialService.t Board Port)
    (b : SerialService.session svc) : SerialConnectionManager.World svc :=
  run [ ignore (SerialConnectionManager.openSerial svc newWebSocket Serial.Monitor) ]
      (plotting svc b).

End Fixtures.

(* ------------------------------------------------------------------ *)
(** * Properties of the coordinator *)

Import SerialConnectionManager.

Section CoordinatorProperties.

Context {Board Port : Type} `{EqDecision Board} `{EqDecision Port}.
Variable address : Port -> string.
Variable serialService : SerialService.t Board Port.
Variable newWebSocket : Z -> option WebSocket.

#[local] Abbreviation World := (SerialConnectionManager.World serialService).
#[local] Abbreviation Config := (SerialConfig Board Port).
#[local] Abbreviation isOpen w :=
  (SerialService.isSerialPortOpen serialService (backend w)).
#[local] Abbreviation beConnect c w :=
  (SerialService.connect serialService c (backend w)).
#[local] Abbreviation beDisconnect w :=
  (SerialService.disconnect serialService (backend w)).
#[local] Abbreviation connect := (SerialConnectionManager.connect serialService).
#[local] Abbreviation disconnect :=
  (SerialConnectionManager.disconnect serialService).
#[local] Abbreviation setConfig :=
  (SerialConnectionManager.setConfig address serialService).
#[local] Abbreviation setState :=
  (SerialConnectionManager.setState serialService).
#[local] Abbreviation openSerial :=
  (SerialConnectionManager.openSerial serialService newWebSocket).
#[local] Abbreviation closeSerial :=
  (SerialConnectionManager.closeSerial serialService).
#[local] Abbreviation handleError :=
  (SerialConnectionManager.handleError serialService).
#[local] Abbreviation classify :=
  (SerialConnectionManager.classify serialService).
#[local] Abbreviation perform :=
  (SerialConnectionManager.perform address serialService newWebSocket).
#[local] Abbreviation Error := (SerialError.t Board Port).

(** ** Notions used in the statements *)

(** What [connect] and [disconnect] leave alone. *)
Definition same_manager (w w' : World) : Prop :=
  _state w' = _state w /\ config w' = config w /\
  serialErrors w' = serialErrors w /\
  reconnectTimeout w' = reconnectTimeout w /\
  webSocket w' = webSocket w /\ serialModel w' = serialModel w /\
  uploading w' = uploading w /\ timers w' = timers w /\
  nextTimer w' = nextTimer w.

(** The world in which the reconnect of [setConfig] starts: the update
    stored and the relay parameters sent. *)
Definition propagated (newConfig : Config) (w : World) : World :=
  set_trace serialService
    (trace w ++
       [UpdateWsConfigParam (baudRate newConfig) (address <$> port newConfig)])
    (set_config serialService newConfig w).

(** The error history once the error has been classified. *)
Definition history_after (e : Error) (w : World) : list Error :=
  serialErrors (exec (classify e) w).

(** The [clearTimeout] of the previous timer, when there is one. *)
Definition cancelled (previous : option nat) (pending : list (nat * Z))
    : list (nat * Z) :=
  match previous with
  | Some id => filter (fun t => fst t <> id) pending
  | None => pending
  end.

Definition cancellation (previous : option nat) : list (Event Board Port) :=
  match previous with
  | Some id => [ClearTimeout id]
  | None => []
  end.

(** The part of the relay invariant that the coordinator maintains: a
    relay socket exists only while the monitor is wanted. *)
Definition relay_with_monitor (w : World) : Prop :=
  webSocket w <> None -> Serial.Monitor ∈ _state w.

(** A backend that reports every disconnect of an open session as OK. *)
Definition disconnect_reports_ok : Prop :=
  forall b : SerialService.session serialService,
    SerialService.isSerialPortOpen serialService b = true ->
    Status.isOK (fst (SerialService.disconnect serialService b)) = true.

(** A run of the coordinator: entry points taken one after the other. *)
Definition performAll (ops : list (@Op Board Port))
    (w : World) : World :=
  fold_left (fun acc op => exec (perform op) acc) ops w.

(** Every pending timer is the one whose id the manager keeps. *)
Definition timers_tracked (w : World) : Prop :=
  forall t : nat * Z,
    In t (timers w) -> reconnectTimeout w = Some (fst t).

Definition same_timers (w w' : World) : Prop :=
  reconnectTimeout w' = reconnectTimeout w /\ timers w' = timers w /\
  nextTimer w' = nextTimer w.

(** What the coordinator may hand to its collaborators: a backend
    connect only with a complete configuration, a timer only between one
    and nine seconds ahead. *)
Definition event_ok (ev : Event Board Port) : Prop :=
  match ev with
  | BackendConnect c => isSerialConfig c = true
  | SetTimeout _ ms => 1000 <= ms <= 9000
  | _ => True
  end.

(** A computation that only adds such events to the trace. *)
Definition adds_ok {A : Type} (m : M serialService A) : Prop :=
  forall w : World,
    exists evs, trace (snd (m w)) = trace w ++ evs /\ Forall event_ok evs.

(** At most one timer is pending, and it is the one the manager keeps. *)
Definition single_timer (w : World) : Prop :=
  timers_tracked w /\ (length (timers w) <= 1)%nat.

(** [wsPort] is truthy: a relay port is stored and is not 0. *)
Definition relayPortKnown (p : option Z) : bool :=
  match p with
  | Some n => negb (n =? 0)
  | None => false
  end.

(** Unfolding of the monad and of the calls on collaborators. *)
Ltac unmonad :=
  unfold exec, eval, emits, messageService, core_isUploading,
    serialService_isSerialPortOpen, serialService_connect,
    serialService_disconnect, setTimeout, clearTimeout in *;
  unfold emit in *;
  unfold bind, ret, gets, modify in *;
  cbn beta iota in *.

(** ** [connect] *)

Lemma connect_already_open (w : World) :
  isOpen w = true ->
  connect w = (Status.ALREADY_CONNECTED, w).
Proof.
  intros Hopen. unfold SerialConnectionManager.connect. unmonad.
  now rewrite Hopen.
Qed.

Lemma connect_incomplete_config (w : World) :
  isOpen w = false ->
  isSerialConfig (config w) = false ->
  connect w = (Status.NOT_CONNECTED, w).
Proof.
  intros Hopen Hcfg. unfold SerialConnectionManager.connect. unmonad.
  now rewrite Hopen, Hcfg.
Qed.

Lemma connect_calls_backend (w : World) :
  isOpen w = false ->
  isSerialConfig (config w) = true ->
  connect w =
    (Status.Coerced (Status.isOK (fst (beConnect (config w) w))),
     set_trace serialService (trace w ++ [BackendConnect (config w)])
       (set_backend serialService (snd (beConnect (config w) w)) w)).
Proof.
  intros Hopen Hcfg. unfold SerialConnectionManager.connect. unmonad.
  rewrite Hopen, Hcfg. simpl.
  now destruct (SerialService.connect serialService (config w) (backend w)).
Qed.

(** ** [disconnect] *)

Lemma disconnect_already_closed (w : World) :
  isOpen w = false ->
  disconnect w = (Status.OK, w).
Proof.
  intros Hopen. unfold SerialConnectionManager.disconnect. unmonad.
  now rewrite Hopen.
Qed.

Lemma disconnect_calls_backend (w : World) :
  isOpen w = true ->
  disconnect w =
    (fst (beDisconnect w),
     let w1 :=
       set_trace serialService (trace w ++ [BackendDisconnect])
         (set_backend serialService (snd (beDisconnect w)) w) in
     if Status.isOK (fst (beDisconnect w))
     then set_wsPort serialService None w1 else w1).
Proof.
  intros Hopen. unfold SerialConnectionManager.disconnect. unmonad.
  rewrite Hopen. simpl.
  destruct (SerialService.disconnect serialService (backend w)) as [st b].
  simpl. now destruct (Status.isOK st).
Qed.

Lemma connect_frame (w : World) :
  same_manager w (exec connect w) /\ wsPort (exec connect w) = wsPort w.
Proof.
  unfold exec, same_manager.
  destruct (isOpen w) eqn:Hopen.
  - rewrite connect_already_open by assumption. simpl. tauto.
  - destruct (isSerialConfig (config w)) eqn:Hcfg.
    + rewrite connect_calls_backend by assumption. simpl. tauto.
    + rewrite connect_incomplete_config by assumption. simpl. tauto.
Qed.

Lemma disconnect_frame (w : World) :
  same_manager w (exec disconnect w).
Proof.
  unfold exec, same_manager.
  destruct (isOpen w) eqn:Hopen.
  - rewrite disconnect_calls_backend by assumption. simpl.
    destruct (Status.isOK _); simpl; tauto.
  - rewrite disconnect_already_closed by assumption. simpl. tauto.
Qed.

(** Replaces the calls of [connect] and [disconnect] in the goal by their
    results, with what the frame lemmas say about them. *)
Ltac frame_calls :=
  repeat match goal with
    | |- context [SerialConnectionManager.connect serialService ?v] =>
        let H := fresh "Hc" in
        pose proof (connect_frame v) as H;
        unfold exec, same_manager in H;
        destruct (SerialConnectionManager.connect serialService v);
        cbn [fst snd] in *
    | |- context [SerialConnectionManager.disconnect serialService ?v] =>
        let H := fresh "Hd" in
        pose proof (disconnect_frame v) as H;
        unfold exec, same_manager in H;
        destruct (SerialConnectionManager.disconnect serialService v);
        cbn [fst snd] in *
    end.

(** ** [setConfig] *)

(** Settles the comparisons of the [forEach] one key after the other. *)
Ltac decide_fields :=
  repeat (simpl;
          match goal with
          | |- context [bool_decide ?P] =>
              first [ rewrite (bool_decide_eq_true_2 P) by congruence
                    | rewrite (bool_decide_eq_false_2 P) by congruence ]
          end).

(** The [forEach] leaves [this.config] equal to the update, field by
    field, and raises [configHasChanged] when they differed. *)
Lemma merge_snd (newConfig cur : Config) :
  snd (merge newConfig cur) = newConfig.
Proof.
  destruct newConfig as [nb np nr], cur as [cb cp cr].
  destruct (decide (nb = cb)), (decide (np = cp)), (decide (nr = cr));
    unfold merge, keys, mergeKey, differs, assign;
    decide_fields; simpl; congruence.
Qed.

Lemma merge_fst (newConfig cur : Config) :
  fst (merge newConfig cur) = negb (bool_decide (newConfig = cur)).
Proof.
  destruct newConfig as [nb np nr], cur as [cb cp cr].
  destruct (decide (nb = cb)), (decide (np = cp)), (decide (nr = cr));
    unfold merge, keys, mergeKey, differs, assign;
    decide_fields; simpl; congruence.
Qed.

Lemma setConfig_eq (newConfig : Config) (w : World) :
  exec (setConfig newConfig) w =
    if negb (bool_decide (newConfig = config w))
       && widgetsAttached (_state w) && negb (uploading w)
    then exec connect (exec disconnect (propagated newConfig w))
    else set_config serialService newConfig w.
Proof.
  unfold SerialConnectionManager.setConfig. unmonad. simpl.
  rewrite merge_snd, merge_fst.
  destruct (negb (bool_decide (newConfig = config w))
            && widgetsAttached (_state w) && negb (uploading w)); simpl.
  - unfold propagated.
    destruct (SerialConnectionManager.disconnect serialService _) as [s1 w1].
    simpl.
    now destruct (SerialConnectionManager.connect serialService w1).
  - reflexivity.
Qed.

(** With an update that carries the stored board and port and a new, set
    baud rate, applied while the session is open, a consumer is attached
    and no upload runs, the new rate is stored next to the unchanged
    board and port and exactly one backend disconnect is made; the backend
    connect with the merged configuration follows it exactly when the
    backend has closed the session. *)
Lemma setConfig_full_update_reconnects
    (w : World) (b : Board) (p : Port) (rate : Z) :
  board (config w) = Some b ->
  port (config w) = Some p ->
  baudRate (config w) <> Some rate ->
  rate <> 0 ->
  isOpen w = true ->
  widgetsAttached (_state w) = true ->
  uploading w = false ->
  let merged := mkConfig (Some b) (Some p) (Some rate) in
  config (exec (setConfig merged) w) = merged /\
  emits (setConfig merged) w
    (UpdateWsConfigParam (Some rate) (Some (address p)) ::
     BackendDisconnect ::
     if SerialService.isSerialPortOpen serialService (snd (beDisconnect w))
     then []
     else [BackendConnect merged]).
Proof.
  intros Hb Hp Hrate Hnz Hopen Hatt Hup merged.
  assert (Hvalid : isSerialConfig merged = true).
  { unfold isSerialConfig, merged. simpl.
    destruct (rate =? 0) eqn:E; [apply Z.eqb_eq in E; contradiction | reflexivity]. }
  unfold emits. rewrite setConfig_eq.
  rewrite bool_decide_eq_false_2, Hatt, Hup; simpl.
  2: { intros E. apply Hrate. rewrite <- E. reflexivity. }
  unfold exec at 2 4. rewrite disconnect_calls_backend by exact Hopen.
  cbn [snd propagated]. fold merged.
  set (w1 := set_trace serialService _ (set_backend serialService _ _)).
  assert (Hw1 : forall v : World,
            (v = w1 \/ v = set_wsPort serialService None w1) ->
            config (exec connect v) = merged /\
            trace (exec connect v) =
              trace w ++
                UpdateWsConfigParam (Some rate) (Some (address p)) ::
                BackendDisconnect ::
                (if SerialService.isSerialPortOpen serialService
                      (snd (beDisconnect w))
                 then []
                 else [BackendConnect merged])).
  { intros v Hv. unfold exec.
    destruct (SerialService.isSerialPortOpen serialService
                (snd (beDisconnect w))) eqn:Hafter.
    - rewrite connect_already_open
        by (destruct Hv as [-> | ->]; simpl; exact Hafter).
      destruct Hv as [-> | ->]; simpl; rewrite <- !app_assoc; auto.
    - rewrite connect_calls_backend.
      + destruct Hv as [-> | ->]; simpl; rewrite <- !app_assoc; auto.
      + destruct Hv as [-> | ->]; simpl; exact Hafter.
      + destruct Hv as [-> | ->]; simpl; exact Hvalid. }
  destruct (Status.isOK _); apply Hw1; auto.
Qed.

(** C1: the update object that holds the baud rate and nothing else,
    [{ baudRate: rate }], applied while the session is open, a consumer
    is attached and no upload runs.  The [forEach] of [setConfig] goes
    over the keys of the stored configuration and compares each with the
    update, so the board and the port, absent from the update, are
    overwritten with [undefined]; one backend disconnect follows, and no
    backend connect: [connect()] finds either the session still open or
    the configuration incomplete. *)
Theorem setConfig_baud_rate_only_drops_board_and_port
    (w : World) (rate : Z) :
  isSerialConfig (config w) = true ->
  isOpen w = true ->
  widgetsAttached (_state w) = true ->
  uploading w = false ->
  let update : Config := mkConfig None None (Some rate) in
  let w' := exec (setConfig update) w in
  board (config w') = None /\
  port (config w') = None /\
  baudRate (config w') = Some rate /\
  emits (setConfig update) w
    [UpdateWsConfigParam (Some rate) None; BackendDisconnect].
Proof.
  intros Hcfg Hopen Hatt Hup. cbv zeta.
  assert (Hchanged : mkConfig None None (Some rate) <> config w).
  { intros E. rewrite <- E in Hcfg. discriminate Hcfg. }
  unfold emits. rewrite setConfig_eq.
  rewrite bool_decide_eq_false_2, Hatt, Hup by exact Hchanged. simpl.
  unfold exec at 2 4 6 8. rewrite disconnect_calls_backend by exact Hopen.
  cbn [snd propagated].
  set (w1 := set_trace serialService _ (set_backend serialService _ _)).
  assert (Hw1 : forall v : World,
            (v = w1 \/ v = set_wsPort serialService None w1) ->
            exec connect v = v).
  { intros v Hv. unfold exec. destruct (isOpen v) eqn:Hafter.
    - now rewrite connect_already_open.
    - rewrite connect_incomplete_config; [reflexivity | exact Hafter |].
      destruct Hv as [-> | ->]; reflexivity. }
  destruct (Status.isOK _); rewrite Hw1 by auto; simpl;
    rewrite <- ?app_assoc; repeat split; reflexivity.
Qed.

(** C6 (amended): when an update changes a field, the current baud rate
    and port address are sent to the relay channel's shared configuration
    exactly when the reconnect is triggered, that is when a consumer is
    attached and no upload runs; otherwise nothing is sent at all. *)
Theorem setConfig_propagates_with_reconnect (newConfig : Config) (w : World) :
  newConfig <> config w ->
  if widgetsAttached (_state w) && negb (uploading w)
  then exists evs,
         emits (setConfig newConfig) w
           (UpdateWsConfigParam (baudRate newConfig)
              (address <$> port newConfig) :: evs)
  else emits (setConfig newConfig) w [].
Proof.
  intros Hchanged. unfold emits. rewrite setConfig_eq.
  rewrite bool_decide_eq_false_2 by exact Hchanged. simpl.
  destruct (widgetsAttached (_state w) && negb (uploading w)).
  - set (w0 := propagated newConfig w).
    assert (Hd : exists evs, trace (exec disconnect w0) = trace w0 ++ evs).
    { unfold exec. destruct (isOpen w0) eqn:Hopen.
      - rewrite disconnect_calls_backend by exact Hopen. simpl.
        exists [BackendDisconnect]. now destruct (Status.isOK _).
      - rewrite disconnect_already_closed by exact Hopen.
        exists []. simpl. now rewrite app_nil_r. }
    destruct Hd as [evs1 Hd].
    set (w1 := exec disconnect w0) in *.
    assert (Hc : exists evs, trace (exec connect w1) = trace w1 ++ evs).
    { unfold exec. destruct (isOpen w1) eqn:Hopen.
      - rewrite connect_already_open by exact Hopen.
        exists []. simpl. now rewrite app_nil_r.
      - destruct (isSerialConfig (config w1)) eqn:Hcfg.
        + rewrite connect_calls_backend by assumption. simpl. eauto.
        + rewrite connect_incomplete_config by assumption.
          exists []. simpl. now rewrite app_nil_r. }
    destruct Hc as [evs2 Hc].
    exists (evs1 ++ evs2). rewrite Hc, Hd. unfold w0, propagated. simpl.
    now rewrite <- !app_assoc.
  - simpl. now rewrite app_nil_r.
Qed.

(** A reconfiguration never touches the error history. *)
Lemma setConfig_keeps_serialErrors (newConfig : Config) (w : World) :
  serialErrors (exec (setConfig newConfig) w) = serialErrors w.
Proof.
  rewrite setConfig_eq.
  destruct (negb _ && _ && _); [| reflexivity].
  destruct (connect_frame (exec disconnect (propagated newConfig w)))
    as [(_ & _ & Hc & _) _].
  destruct (disconnect_frame (propagated newConfig w)) as (_ & _ & Hd & _).
  now rewrite Hc, Hd.
Qed.

(** ** [handleError] *)

Lemma classify_frame (e : Error) (w : World) :
  let w1 := exec (classify e) w in
  _state w1 = _state w /\ backend w1 = backend w /\
  reconnectTimeout w1 = reconnectTimeout w /\ timers w1 = timers w /\
  nextTimer w1 = nextTimer w /\ webSocket w1 = webSocket w /\
  wsPort w1 = wsPort w /\ config w1 = config w /\
  exists notes,
    forallb isNotification notes = true /\ trace w1 = trace w ++ notes.
Proof.
  unfold SerialConnectionManager.classify.
  destruct (SerialError.code e) as [[] |]; unmonad; simpl;
    repeat split;
    first [ exists []; split; [reflexivity | now rewrite app_nil_r]
          | eexists; split; [| reflexivity]; reflexivity ].
Qed.

Lemma handleError_closed (e : Error) (w : World) :
  isOpen w = false -> exec (handleError e) w = w.
Proof.
  intros Hopen. unfold SerialConnectionManager.handleError. unmonad.
  now rewrite Hopen.
Qed.

Lemma handleError_eq (e : Error) (w : World) :
  isOpen w = true ->
  exec (handleError e) w =
    let w1 := exec (classify e) w in
    if widgetsAttached (_state w)
    then
      if (10 <=? length (serialErrors w1))%nat
      then
        set_serialErrors serialService []
          (set_trace serialService
             (trace w1 ++ [Notify SevWarn FailedReconnect]) w1)
      else
        let attempts := Z.max 1 (Z.of_nat (length (serialErrors w1))) in
        set_reconnectTimeout serialService (Some (nextTimer w))
          (set_trace serialService
             (trace w1 ++ cancellation (reconnectTimeout w) ++
                [Notify SevWarn (Reconnect attempts);
                 SetTimeout (nextTimer w) (attempts * 1000)])
             (set_timers serialService
                (cancelled (reconnectTimeout w) (timers w) ++
                   [(nextTimer w, attempts * 1000)])
                (S (nextTimer w)) w1))
    else w1.
Proof.
  intros Hopen.
  destruct (classify_frame e w)
    as (Hst & Hbe & Hrt & Htm & Hnt & _ & _ & _ & _).
  unfold SerialConnectionManager.handleError. unmonad.
  rewrite Hopen. cbn [negb].
  destruct (SerialConnectionManager.classify serialService e w)
    as [[] w1] eqn:Hc.
  cbn [fst snd] in *. rewrite Hst.
  destruct (widgetsAttached (_state w)); [| reflexivity].
  destruct (10 <=? length (serialErrors w1))%nat eqn:Hlen; [reflexivity |].
  apply Nat.leb_gt in Hlen. cbn beta iota.
  assert (Hatt :
    (if (length (serialErrors w1) =? 0)%nat then 1
     else Z.of_nat (length (serialErrors w1)))
    = Z.max 1 (Z.of_nat (length (serialErrors w1)))).
  { destruct (length (serialErrors w1)) as [| n]; simpl; lia. }
  rewrite Hatt, <- Hrt, <- Htm, <- Hnt.
  destruct (reconnectTimeout w1) as [id |]; simpl;
    rewrite <- ?app_assoc; reflexivity.
Qed.

(** C4: when the handler processes an error while the session is open, a
    consumer is attached and the history (with this error recorded) holds
    fewer than 10 entries, it clears the previous reconnect timer and sets
    exactly one new timer, [max(1, historyLength) * 1000] ms ahead, whose
    id it keeps. *)
Theorem handleError_schedules_reconnect (e : Error) (w : World) :
  isOpen w = true ->
  widgetsAttached (_state w) = true ->
  (length (history_after e w) < 10)%nat ->
  let w' := exec (handleError e) w in
  let attempts := Z.max 1 (Z.of_nat (length (serialErrors w'))) in
  serialErrors w' = history_after e w /\
  reconnectTimeout w' = Some (nextTimer w) /\
  timers w' =
    cancelled (reconnectTimeout w) (timers w) ++
      [(nextTimer w, attempts * 1000)] /\
  exists notes,
    forallb isNotification notes = true /\
    trace w' =
      trace w ++ notes ++ cancellation (reconnectTimeout w) ++
        [Notify SevWarn (Reconnect attempts);
         SetTimeout (nextTimer w) (attempts * 1000)].
Proof.
  intros Hopen Hatt Hlen. unfold history_after in *.
  destruct (classify_frame e w) as (_ & _ & _ & _ & _ & _ & _ & _ & notes & Hn & Ht).
  cbv zeta. rewrite handleError_eq by exact Hopen. cbv zeta.
  rewrite Hatt. apply Nat.leb_gt in Hlen. rewrite Hlen. simpl.
  repeat split. exists notes. split; [exact Hn |].
  rewrite Ht, <- !app_assoc. reflexivity.
Qed.

(** Shared by the two statements about the bound. *)
Lemma handleError_at_bound (e : Error) (w : World) :
  isOpen w = true ->
  widgetsAttached (_state w) = true ->
  (10 <= length (history_after e w))%nat ->
  exec (handleError e) w =
    set_serialErrors serialService []
      (set_trace serialService
         (trace (exec (classify e) w) ++ [Notify SevWarn FailedReconnect])
         (exec (classify e) w)).
Proof.
  intros Hopen Hatt Hlen. unfold history_after in *.
  rewrite handleError_eq by exact Hopen. cbv zeta.
  rewrite Hatt. apply Nat.leb_le in Hlen. now rewrite Hlen.
Qed.

(** C5: when the handler processes an error while the session is open, a
    consumer is attached and the history (with this error recorded) has
    reached 10 entries, it warns the user, empties the history, and sets
    no timer: the pending timers and the kept timer id stay as they
    were. *)
Theorem handleError_gives_up_at_bound (e : Error) (w : World) :
  isOpen w = true ->
  widgetsAttached (_state w) = true ->
  (10 <= length (history_after e w))%nat ->
  let w' := exec (handleError e) w in
  serialErrors w' = [] /\
  timers w' = timers w /\
  nextTimer w' = nextTimer w /\
  reconnectTimeout w' = reconnectTimeout w /\
  exists notes,
    forallb isNotification notes = true /\
    trace w' = trace w ++ notes ++ [Notify SevWarn FailedReconnect].
Proof.
  intros Hopen Hatt Hlen.
  destruct (classify_frame e w)
    as (_ & _ & Hrt & Htm & Hnt & _ & _ & _ & notes & Hn & Ht).
  cbv zeta. rewrite handleError_at_bound by assumption. simpl.
  repeat split; try assumption.
  exists notes. split; [exact Hn |]. rewrite Ht, <- app_assoc. reflexivity.
Qed.

(** C8 (amended): the error history is emptied when the handler finds it
    at its bound of 10 entries with a consumer attached; a
    reconfiguration, whatever the state it is applied in and whether or
    not it reconnects, leaves the history as it is. *)
Theorem serialErrors_cleared_at_bound_only
    (e : Error) (newConfig : Config) (w : World) :
  (isOpen w = true ->
   widgetsAttached (_state w) = true ->
   (10 <= length (history_after e w))%nat ->
   serialErrors (exec (handleError e) w) = []) /\
  serialErrors (exec (setConfig newConfig) w) = serialErrors w.
Proof.
  split.
  - intros Hopen Hatt Hlen. now rewrite handleError_at_bound by assumption.
  - apply setConfig_keeps_serialErrors.
Qed.

(** ** [setState], [openSerial], [closeSerial] *)

Lemma setState_detach (w : World) :
  widgetsAttached (_state w) = true ->
  setState [] w =
    (eval disconnect w, set__state serialService [] (exec disconnect w)).
Proof.
  intros Hatt. unfold SerialConnectionManager.setState. unmonad.
  rewrite Hatt. simpl.
  now destruct (SerialConnectionManager.disconnect serialService w).
Qed.

(** [setState] never touches the relay socket, and on an OK status the
    wanted consumers are the ones asked for. *)
Lemma setState_frame (newState : Serial.State) (w : World) :
  webSocket (exec (setState newState) w) = webSocket w /\
  (Status.isOK (eval (setState newState) w) = true ->
   _state (exec (setState newState) w) = newState).
Proof.
  unfold SerialConnectionManager.setState. unmonad.
  destruct (widgetsAttached (_state w) && negb (widgetsAttached newState)).
  - pose proof (disconnect_frame w) as (_ & _ & _ & _ & Hws & _).
    unfold exec in Hws.
    destruct (SerialConnectionManager.disconnect serialService w). simpl in *.
    auto.
  - destruct (negb (widgetsAttached (_state w)) && widgetsAttached newState).
    + destruct (uploading w); simpl.
      * split; [reflexivity | discriminate].
      * pose proof (connect_frame w) as [(_ & _ & _ & _ & Hws & _) _].
        unfold exec in Hws.
        destruct (SerialConnectionManager.connect serialService w).
        simpl in *. auto.
    + simpl. auto.
Qed.

Lemma createWsConnection_spec (w : World) :
  let w' := exec (createWsConnection serialService newWebSocket) w in
  _state w' = _state w /\ wsPort w' = wsPort w /\
  (webSocket w' = webSocket w \/
   exists p, wsPort w = Some p /\ p <> 0 /\ webSocket w' = newWebSocket p).
Proof.
  unfold createWsConnection. unmonad.
  destruct (wsPort w) as [p |] eqn:Hp; simpl; [| auto].
  destruct (p =? 0) eqn:Hz; simpl; [auto |].
  apply Z.eqb_neq in Hz.
  destruct (newWebSocket p) as [ws |] eqn:Hnew; simpl; [| auto].
  repeat split; try assumption. right. exists p. now rewrite Hnew.
Qed.

(** C7 (amended): with the session open and exactly one consumer
    attached, closing that consumer makes exactly one backend disconnect
    call and no backend connect call, whatever the backend answers, and,
    when the backend reports that disconnect as OK, clears the stored
    relay port. *)
Theorem closeSerial_last_consumer (ty : Serial.Type_) (w : World) :
  _state w = [ty] ->
  isOpen w = true ->
  let w' := exec (closeSerial ty) w in
  (exists evs,
     emits (closeSerial ty) w evs /\ backendCalls evs = [BackendDisconnect]) /\
  _state w' = [] /\
  (Status.isOK (fst (beDisconnect w)) = true -> wsPort w' = None).
Proof.
  intros Hst Hopen.
  assert (Hatt : widgetsAttached (_state w) = true) by now rewrite Hst.
  assert (Hidx : indexOf ty (_state w) = Some O).
  { rewrite Hst. simpl. now destruct (decide (ty = ty)). }
  cbv zeta. unfold emits, exec.
  destruct (SerialConnectionManager.closeSerial serialService ty w)
    as [st w'] eqn:Heq.
  unfold SerialConnectionManager.closeSerial in Heq. unmonad.
  rewrite Hidx in Heq. rewrite Hst in Heq at 1. cbn [splice1] in Heq.
  rewrite setState_detach in Heq by exact Hatt.
  unfold eval, exec in Heq.
  rewrite disconnect_calls_backend in Heq by exact Hopen.
  cbn [fst snd] in Heq.
  destruct (Status.isOK (fst (beDisconnect w))) eqn:Hok; simpl in Heq;
    (destruct (webSocket w) as [sock |]; [try destruct (bool_decide _) |]);
    injection Heq as <- <-; simpl;
    (split;
     [eexists; (split; [rewrite <- ?app_assoc; reflexivity | reflexivity]) |]);
    (split; [reflexivity |]);
    first [reflexivity | discriminate | intros _; reflexivity].
Qed.

(** ** The relay socket *)

Lemma indexOf_includes (ty : Serial.Type_) (st : Serial.State) :
  includes ty st =
    match indexOf ty st with Some _ => true | None => false end.
Proof.
  unfold includes. induction st as [| x st IH]; simpl.
  - reflexivity.
  - destruct (decide (x = ty)) as [-> | Hne].
    + apply bool_decide_eq_true_2. left.
    + destruct (indexOf ty st).
      * apply bool_decide_eq_true_2. right.
        now apply bool_decide_eq_true_1 in IH.
      * apply bool_decide_eq_false_2. intros Hin.
        apply bool_decide_eq_false_1 in IH.
        apply elem_of_cons in Hin as [-> | Hin]; [now apply Hne | now apply IH].
Qed.

Lemma openSerial_webSocket (ty : Serial.Type_) (w : World) :
  let w' := exec (openSerial ty) w in
  webSocket w' = webSocket w \/
  (ty = Serial.Monitor /\
   Status.isOK (eval (openSerial ty) w) = true /\
   Serial.Monitor ∈ _state w' /\
   exists p, wsPort w' = Some p /\ p <> 0 /\ webSocket w' = newWebSocket p).
Proof.
  cbv zeta. unfold eval, exec.
  destruct (SerialConnectionManager.openSerial serialService newWebSocket ty w)
    as [st w'] eqn:Heq.
  unfold SerialConnectionManager.openSerial in Heq. unmonad.
  destruct (isSerialConfig (config w)); simpl in Heq;
    [| injection Heq as <- <-; now left].
  destruct (includes ty (_state w)); [injection Heq as <- <-; now left |].
  destruct (setState_frame (_state w ++ [ty]) w) as [Hws Hstate].
  unfold eval, exec in Hws, Hstate.
  destruct (SerialConnectionManager.setState serialService (_state w ++ [ty]) w)
    as [st1 w1].
  cbn [fst snd] in *.
  destruct (Status.isOK st1 && bool_decide (ty = Serial.Monitor)) eqn:Hgo;
    [| injection Heq as <- <-; now left].
  apply andb_true_iff in Hgo as [Hok Hty].
  apply bool_decide_eq_true_1 in Hty.
  destruct (createWsConnection_spec w1) as (Hs & Hp & Hcase).
  unfold exec in Hs, Hp, Hcase.
  destruct (createWsConnection serialService newWebSocket w1) as [b w2].
  cbn [fst snd] in *. injection Heq as <- <-.
  destruct Hcase as [Hsame | (p & Hp1 & Hnz & Hnew)].
  - left. congruence.
  - right. repeat split; try assumption.
    + rewrite Hs, (Hstate Hok), Hty. apply elem_of_app. right. left.
    + exists p. rewrite Hp. auto.
Qed.

Lemma closeSerial_webSocket (ty : Serial.Type_) (w : World) :
  webSocket (exec (closeSerial ty) w) =
    if bool_decide (ty = Serial.Monitor) && includes ty (_state w)
       && Status.isOK (eval (closeSerial ty) w)
    then None else webSocket w.
Proof.
  unfold eval, exec. rewrite indexOf_includes.
  destruct (SerialConnectionManager.closeSerial serialService ty w)
    as [st w'] eqn:Heq.
  unfold SerialConnectionManager.closeSerial in Heq. unmonad.
  destruct (indexOf ty (_state w)) as [index |];
    [| injection Heq as <- <-; now rewrite andb_false_r].
  destruct (setState_frame (splice1 index (_state w)) w) as [Hws _].
  unfold exec in Hws.
  destruct (SerialConnectionManager.setState serialService _ w)
    as [st1 w1].
  cbn [fst snd] in *. rewrite andb_true_r, andb_comm.
  destruct (webSocket w1) as [sock |] eqn:Hsock.
  - destruct (Status.isOK st1 && bool_decide (ty = Serial.Monitor)) eqn:Hgo;
      injection Heq as <- <-; simpl; rewrite Hgo; congruence.
  - injection Heq as <- <-. cbn [fst snd]. rewrite Hsock.
    rewrite <- Hws. now destruct (_ && _).
Qed.

Lemma setConfig_keeps_webSocket (newConfig : Config) (w : World) :
  webSocket (exec (setConfig newConfig) w) = webSocket w.
Proof.
  rewrite setConfig_eq.
  destruct (negb _ && _ && _); [| reflexivity].
  destruct (connect_frame (exec disconnect (propagated newConfig w)))
    as [(_ & _ & _ & _ & Hc & _) _].
  destruct (disconnect_frame (propagated newConfig w))
    as (_ & _ & _ & _ & Hd & _).
  now rewrite Hc, Hd.
Qed.

Lemma handleError_keeps_webSocket (e : Error) (w : World) :
  webSocket (exec (handleError e) w) = webSocket w.
Proof.
  destruct (classify_frame e w) as (_ & _ & _ & _ & _ & Hws & _).
  destruct (isOpen w) eqn:Hopen.
  - rewrite handleError_eq by exact Hopen. cbv zeta.
    destruct (widgetsAttached _); [| exact Hws].
    destruct (_ <=? _)%nat; exact Hws.
  - now rewrite handleError_closed.
Qed.

Lemma exec_discard {A : Type} (m : M serialService A) (w : World) :
  exec (bind serialService m (fun _ => ret serialService tt)) w = exec m w.
Proof. unfold exec, bind, ret. now destruct (m w). Qed.


(** ** What survives of the relay invariant *)

Lemma handleBoardConfigChange_eq (selectedBoard : option Board)
    (selectedPort : option Port) (w : World) :
  exec (handleBoardConfigChange address serialService selectedBoard
          selectedPort) w =
  exec (setConfig
          (mkConfig selectedBoard selectedPort
             (Some (model_baudRate (serialModel w))))) w.
Proof. reflexivity. Qed.

Lemma setState_state (newState : Serial.State) (w : World) :
  _state (exec (setState newState) w) = newState \/
  _state (exec (setState newState) w) = _state w.
Proof.
  unfold SerialConnectionManager.setState. unmonad.
  destruct (_ && _); [| destruct (_ && _); [destruct (uploading w) |]];
    frame_calls; simpl; auto.
Qed.

Lemma splice1_keeps_others (x ty : Serial.Type_) (st : Serial.State)
    (index : nat) :
  x <> ty -> x ∈ st -> indexOf ty st = Some index -> x ∈ splice1 index st.
Proof.
  intros Hne. revert index.
  induction st as [| y st IH]; intros index Hin Hidx; [inversion Hin |].
  simpl in Hidx. destruct (decide (y = ty)) as [-> | Hy].
  - injection Hidx as <-. simpl.
    apply elem_of_cons in Hin as [-> | Hin]; [contradiction | exact Hin].
  - destruct (indexOf ty st) as [i |] eqn:Hi; [| discriminate].
    injection Hidx as <-. simpl.
    apply elem_of_cons in Hin as [-> | Hin]; [left | right].
    now apply IH.
Qed.

(** Closing a consumer that is attached reports OK at such a backend. *)
Lemma closeSerial_reports_ok (ty : Serial.Type_) (w : World) :
  disconnect_reports_ok ->
  Status.isOK (eval (closeSerial ty) w) = true.
Proof.
  intros Hok. unfold eval.
  destruct (SerialConnectionManager.closeSerial serialService ty w)
    as [st w'] eqn:Heq.
  unfold SerialConnectionManager.closeSerial in Heq. unmonad.
  destruct (indexOf ty (_state w)) as [index |] eqn:Hidx;
    [| now injection Heq as <- <-].
  assert (Hatt : widgetsAttached (_state w) = true).
  { destruct (_state w); [discriminate Hidx | reflexivity]. }
  assert (Hst : Status.isOK (eval (setState (splice1 index (_state w))) w)
                = true).
  { unfold eval, SerialConnectionManager.setState. unmonad.
    rewrite Hatt. cbn [negb andb].
    destruct (widgetsAttached (splice1 index (_state w))); simpl;
      [reflexivity |].
    destruct (isOpen w) eqn:Hopen.
    - rewrite disconnect_calls_backend by exact Hopen. simpl.
      now apply Hok.
    - now rewrite disconnect_already_closed. }
  unfold eval in Hst.
  destruct (SerialConnectionManager.setState serialService _ w) as [st1 w1].
  cbn [fst snd] in *.
  destruct (webSocket w1); [destruct (_ && _) |]; simpl in Heq;
    now injection Heq as <- <-.
Qed.

Lemma closeSerial_state (ty : Serial.Type_) (w : World) :
  _state (exec (closeSerial ty) w) = _state w \/
  exists index,
    indexOf ty (_state w) = Some index /\
    _state (exec (closeSerial ty) w) = splice1 index (_state w).
Proof.
  unfold exec.
  destruct (SerialConnectionManager.closeSerial serialService ty w)
    as [st w'] eqn:Heq.
  unfold SerialConnectionManager.closeSerial in Heq. unmonad.
  destruct (indexOf ty (_state w)) as [index |] eqn:Hidx;
    [| injection Heq as <- <-; now left].
  pose proof (setState_state (splice1 index (_state w)) w) as Hs.
  unfold exec in Hs.
  destruct (SerialConnectionManager.setState serialService _ w) as [st1 w1].
  cbn [fst snd] in *.
  assert (Hw' : _state w' = _state w1).
  { destruct (webSocket w1); [destruct (_ && _) |]; simpl in Heq;
      now injection Heq as <- <-. }
  rewrite Hw'. destruct Hs as [Hs | Hs]; [right; eauto | now left].
Qed.

Lemma openSerial_state (ty : Serial.Type_) (w : World) :
  _state (exec (openSerial ty) w) = _state w \/
  _state (exec (openSerial ty) w) = _state w ++ [ty].
Proof.
  unfold exec.
  destruct (SerialConnectionManager.openSerial serialService newWebSocket ty w)
    as [st w'] eqn:Heq.
  unfold SerialConnectionManager.openSerial in Heq. unmonad.
  destruct (isSerialConfig (config w)); simpl in Heq;
    [| injection Heq as <- <-; now left].
  destruct (includes ty (_state w)); [injection Heq as <- <-; now left |].
  pose proof (setState_state (_state w ++ [ty]) w) as Hs.
  unfold exec in Hs.
  destruct (SerialConnectionManager.setState serialService _ w) as [st1 w1].
  cbn [fst snd] in *.
  assert (Hw' : _state w' = _state w1).
  { destruct (_ && _); [| now injection Heq as <- <-].
    destruct (createWsConnection_spec w1) as (Hc & _).
    unfold exec in Hc.
    destruct (createWsConnection serialService newWebSocket w1).
    cbn [fst snd] in *. now injection Heq as <- <-. }
  rewrite Hw'. tauto.
Qed.

Lemma setConfig_keeps_state (newConfig : Config) (w : World) :
  _state (exec (setConfig newConfig) w) = _state w.
Proof.
  rewrite setConfig_eq.
  destruct (negb _ && _ && _); [| reflexivity].
  destruct (connect_frame (exec disconnect (propagated newConfig w)))
    as [(Hc & _) _].
  destruct (disconnect_frame (propagated newConfig w)) as (Hd & _).
  now rewrite Hc, Hd.
Qed.

Lemma handleError_keeps_state (e : Error) (w : World) :
  _state (exec (handleError e) w) = _state w.
Proof.
  destruct (classify_frame e w) as (Hst & _).
  destruct (isOpen w) eqn:Hopen.
  - rewrite handleError_eq by exact Hopen. cbv zeta.
    destruct (widgetsAttached _); [| exact Hst].
    destruct (_ <=? _)%nat; exact Hst.
  - now rewrite handleError_closed.
Qed.

(** At a backend that reports its disconnects as OK, every entry point
    keeps the relay socket tied to the monitor. *)
Lemma perform_keeps_relay_with_monitor (op : Op) (w : World) :
  disconnect_reports_ok ->
  relay_with_monitor w -> relay_with_monitor (exec (perform op) w).
Proof.
  intros Hok Hinv. unfold relay_with_monitor in *.
  destruct op as [c | ty | ty | e | | | data | p | b p | id];
    unfold SerialConnectionManager.perform; cbn beta iota;
    rewrite ?exec_discard.
  - now rewrite setConfig_keeps_webSocket, setConfig_keeps_state.
  - destruct (openSerial_webSocket ty w) as [Hsame | (_ & _ & Hin & _)];
      [| intros _; exact Hin].
    rewrite Hsame. intros Hws. specialize (Hinv Hws).
    destruct (openSerial_state ty w) as [-> | ->]; [exact Hinv |].
    apply elem_of_app. now left.
  - rewrite closeSerial_webSocket, closeSerial_reports_ok by exact Hok.
    rewrite andb_true_r.
    destruct ty; cbn [bool_decide andb].
    + rewrite (bool_decide_eq_true_2 _ eq_refl). cbn [andb].
      destruct (includes Serial.Monitor (_state w)) eqn:Hinc;
        [intros Hws; now contradiction Hws |].
      intros Hws. specialize (Hinv Hws).
      apply bool_decide_eq_false_1 in Hinc. contradiction.
    + rewrite bool_decide_eq_false_2 by discriminate. cbn [andb].
      intros Hws. specialize (Hinv Hws).
      destruct (closeSerial_state Serial.Plotter w)
        as [-> | (index & Hidx & ->)]; [exact Hinv |].
      now apply (splice1_keeps_others Serial.Monitor Serial.Plotter).
  - now rewrite handleError_keeps_webSocket, handleError_keeps_state.
  - destruct (connect_frame w) as [(-> & _ & _ & _ & -> & _) _]. exact Hinv.
  - destruct (disconnect_frame w) as (-> & _ & _ & _ & -> & _). exact Hinv.
  - unfold send. unmonad. now destruct (isOpen w).
  - exact Hinv.
  - rewrite handleBoardConfigChange_eq.
    now rewrite setConfig_keeps_webSocket, setConfig_keeps_state.
  - unfold timerFires. unmonad.
    destruct (bool_decide _); [| exact Hinv]. simpl.
    frame_calls. simpl in *.
    destruct Hc as [(-> & _ & _ & _ & -> & _) _]. exact Hinv.
Qed.

(** ** The contract of [connect] *)

(** A second [connect()] right after one that left the session open. *)
Lemma connect_twice (w : World) :
  isOpen (exec connect w) = true ->
  connect (exec connect w) = (Status.ALREADY_CONNECTED, exec connect w).
Proof. apply connect_already_open. Qed.

(** The three cases of [connect()] in one statement: what it returns and
    which backend calls it makes. *)
Lemma connect_contract (w : World) :
  if isOpen w
  then connect w = (Status.ALREADY_CONNECTED, w)
  else if isSerialConfig (config w)
  then eval connect w = Status.Coerced (Status.isOK (fst (beConnect (config w) w)))
       /\ emits connect w [BackendConnect (config w)]
  else connect w = (Status.NOT_CONNECTED, w).
Proof.
  destruct (isOpen w) eqn:Hopen.
  - now apply connect_already_open.
  - destruct (isSerialConfig (config w)) eqn:Hcfg.
    + unfold eval, emits, exec.
      now rewrite connect_calls_backend by assumption.
    + now apply connect_incomplete_config.
Qed.

(** ** At most one reconnect timer *)

Lemma setState_same_timers (newState : Serial.State) (w : World) :
  same_timers w (exec (setState newState) w).
Proof.
  unfold same_timers, SerialConnectionManager.setState. unmonad.
  destruct (_ && _); [| destruct (_ && _); [destruct (uploading w) |]];
    frame_calls; simpl in *; intuition congruence.
Qed.

Lemma openSerial_same_timers (ty : Serial.Type_) (w : World) :
  same_timers w (exec (openSerial ty) w).
Proof.
  pose proof (setState_same_timers (_state w ++ [ty]) w) as Hs.
  unfold same_timers, SerialConnectionManager.openSerial in *. unmonad.
  destruct (isSerialConfig _); simpl; [| auto].
  destruct (includes _ _); simpl; [auto |].
  destruct (SerialConnectionManager.setState serialService _ w) as [st w1].
  cbn [fst snd] in *.
  destruct (_ && _); simpl; [| exact Hs].
  unfold createWsConnection. unmonad.
  destruct (wsPort w1) as [n |]; simpl; [| exact Hs].
  destruct (n =? 0); simpl; [exact Hs |].
  destruct (newWebSocket n); simpl; exact Hs.
Qed.

Lemma closeSerial_same_timers (ty : Serial.Type_) (w : World) :
  same_timers w (exec (closeSerial ty) w).
Proof.
  unfold same_timers, SerialConnectionManager.closeSerial. unmonad.
  destruct (indexOf ty (_state w)) as [index |]; simpl; [| auto].
  pose proof (setState_same_timers (splice1 index (_state w)) w) as Hs.
  unfold same_timers, exec in Hs.
  destruct (SerialConnectionManager.setState serialService _ w) as [st w1].
  cbn [fst snd] in *.
  destruct (webSocket w1); [destruct (_ && _) |]; simpl; exact Hs.
Qed.

Lemma setConfig_same_timers (newConfig : Config) (w : World) :
  same_timers w (exec (setConfig newConfig) w).
Proof.
  unfold same_timers. rewrite setConfig_eq.
  destruct (negb _ && _ && _); [| simpl; auto].
  destruct (connect_frame (exec disconnect (propagated newConfig w)))
    as [(_ & _ & _ & Hr & _ & _ & _ & Ht & Hn) _].
  destruct (disconnect_frame (propagated newConfig w))
    as (_ & _ & _ & Hr' & _ & _ & _ & Ht' & Hn').
  rewrite Hr, Ht, Hn, Hr', Ht', Hn'. simpl. auto.
Qed.

Lemma timers_tracked_same (w w' : World) :
  same_timers w w' -> timers_tracked w -> timers_tracked w'.
Proof.
  intros (Hr & Ht & _) Htr t Hin. rewrite Hr. apply Htr. now rewrite <- Ht.
Qed.

Lemma filter_tracked (id : nat) (pending : list (nat * Z)) :
  (forall t, In t pending -> fst t = id) ->
  filter (fun t : nat * Z => fst t <> id) pending = [].
Proof.
  induction pending as [| t pending IH]; intros Hall; [reflexivity |].
  rewrite filter_cons. destruct (decide (fst t <> id)) as [Hne | _].
  - exfalso. apply Hne, Hall. now left.
  - apply IH. intros u Hu. apply Hall. now right.
Qed.

Lemma cancelled_tracked (w : World) :
  timers_tracked w -> cancelled (reconnectTimeout w) (timers w) = [].
Proof.
  intros Htr. unfold cancelled.
  destruct (reconnectTimeout w) as [id |] eqn:Hid.
  - apply filter_tracked. intros t Hin.
    specialize (Htr t Hin). congruence.
  - unfold timers_tracked in Htr.
    destruct (timers w) as [| t pending]; [reflexivity |].
    specialize (Htr t (or_introl eq_refl)). congruence.
Qed.

(** With the timers tracked, the handler leaves exactly one pending
    timer when it schedules a retry. *)
Lemma handleError_single_pending_timer (e : Error) (w : World) :
  timers_tracked w ->
  isOpen w = true ->
  widgetsAttached (_state w) = true ->
  (length (history_after e w) < 10)%nat ->
  timers (exec (handleError e) w) =
    [(nextTimer w,
      Z.max 1 (Z.of_nat (length (history_after e w))) * 1000)].
Proof.
  intros Htr Hopen Hatt Hlen. unfold history_after in *.
  rewrite handleError_eq by exact Hopen. cbv zeta.
  rewrite Hatt. apply Nat.leb_gt in Hlen. rewrite Hlen. simpl.
  now rewrite cancelled_tracked.
Qed.

Lemma handleError_keeps_timers_tracked (e : Error) (w : World) :
  timers_tracked w -> timers_tracked (exec (handleError e) w).
Proof.
  intros Htr.
  destruct (classify_frame e w) as (_ & _ & Hrt & Htm & _).
  destruct (isOpen w) eqn:Hopen; [| now rewrite handleError_closed].
  rewrite handleError_eq by exact Hopen. cbv zeta.
  assert (Htr1 : timers_tracked (exec (classify e) w)).
  { intros t Hin. rewrite Hrt. apply Htr. now rewrite <- Htm. }
  destruct (widgetsAttached _); [| exact Htr1].
  destruct (_ <=? _)%nat; [exact Htr1 |].
  intros u. simpl. rewrite cancelled_tracked by exact Htr. simpl.
  intros [<- | []]. reflexivity.
Qed.

Lemma timerFires_keeps_timers_tracked (id : nat) (w : World) :
  timers_tracked w -> timers_tracked (exec (timerFires serialService id) w).
Proof.
  intros Htr. unfold timerFires. unmonad.
  destruct (bool_decide _); [| exact Htr]. simpl.
  frame_calls. simpl in *.
  destruct Hc as [(_ & _ & _ & Hr & _ & _ & _ & Ht & _) _].
  intros u Hin. rewrite Hr. rewrite Ht in Hin. simpl in *.
  apply Htr. apply list_elem_of_In in Hin.
  apply list_elem_of_In. now apply list_elem_of_filter in Hin as [_ Hin].
Qed.

(** The invariant holds at start-up and every entry point keeps it. *)
Lemma new_timers_tracked (model : SerialModel)
    (b : SerialService.session serialService) :
  timers_tracked (new serialService model b).
Proof. intros t []. Qed.

Lemma perform_keeps_timers_tracked (op : Op) (w : World) :
  timers_tracked w -> timers_tracked (exec (perform op) w).
Proof.
  destruct op as [c | ty | ty | e | | | data | p | b p | id];
    unfold SerialConnectionManager.perform; rewrite ?exec_discard.
  - apply timers_tracked_same, setConfig_same_timers.
  - apply timers_tracked_same, openSerial_same_timers.
  - apply timers_tracked_same, closeSerial_same_timers.
  - apply handleError_keeps_timers_tracked.
  - apply timers_tracked_same.
    destruct (connect_frame w) as [(_ & _ & _ & ? & _ & _ & _ & ? & ?) _].
    now repeat split.
  - apply timers_tracked_same.
    destruct (disconnect_frame w) as (_ & _ & _ & ? & _ & _ & _ & ? & ?).
    now repeat split.
  - apply timers_tracked_same. unfold send. unmonad.
    now destruct (isOpen w).
  - apply timers_tracked_same. now repeat split.
  - unfold handleBoardConfigChange. unmonad.
    apply timers_tracked_same, setConfig_same_timers.
  - apply timerFires_keeps_timers_tracked.
Qed.

(** Both invariants hold along every run from start-up. *)
Lemma performAll_invariants (ops : list (@Op Board Port))
    (model : SerialModel) (b : SerialService.session serialService) :
  timers_tracked (performAll ops (new serialService model b)) /\
  (disconnect_reports_ok ->
   relay_with_monitor (performAll ops (new serialService model b))).
Proof.
  unfold performAll.
  assert (Hgen : forall w,
            timers_tracked w ->
            timers_tracked
              (fold_left (fun acc op => exec (perform op) acc) ops w) /\
            (disconnect_reports_ok -> relay_with_monitor w ->
             relay_with_monitor
               (fold_left (fun acc op => exec (perform op) acc) ops w))).
  { induction ops as [| op ops IH]; intros w Htr; simpl; [tauto |].
    destruct (IH (exec (perform op) w)) as [Ht Hr].
    - now apply perform_keeps_timers_tracked.
    - split; [exact Ht |]. intros Hok Hinv. apply Hr; [exact Hok |].
      now apply perform_keeps_relay_with_monitor. }
  destruct (Hgen (new serialService model b)) as [Ht Hr].
  - apply new_timers_tracked.
  - split; [exact Ht |]. intros Hok. apply Hr; [exact Hok |].
    intros Hws. now contradiction Hws.
Qed.

(** ** [send] and a second consumer *)

Lemma send_open (data : string) (w : World) :
  isOpen w = true ->
  SerialConnectionManager.send serialService data w =
    (Status.OK,
     set_trace serialService
       (trace w ++
          [SendMessageToSerial (data ++ model_lineEnding (serialModel w))])
       w).
Proof.
  intros Hopen. unfold SerialConnectionManager.send. unmonad.
  now rewrite Hopen.
Qed.

Lemma send_closed (data : string) (w : World) :
  isOpen w = false ->
  SerialConnectionManager.send serialService data w
    = (Status.NOT_CONNECTED, w).
Proof.
  intros Hopen. unfold SerialConnectionManager.send. unmonad.
  now rewrite Hopen.
Qed.

(** X29: opening a further consumer while one is attached is bookkeeping
    only: the status is OK, the consumer is appended to the wanted ones,
    and no backend call is made. *)
Lemma openSerial_further_consumer (ty : Serial.Type_) (w : World) :
  isSerialConfig (config w) = true ->
  widgetsAttached (_state w) = true ->
  includes ty (_state w) = false ->
  eval (openSerial ty) w = Status.OK /\
  _state (exec (openSerial ty) w) = _state w ++ [ty] /\
  exists evs,
    emits (openSerial ty) w evs /\ backendCalls evs = [].
Proof.
  intros Hcfg Hatt Hinc.
  assert (Hnew : widgetsAttached (_state w ++ [ty]) = true)
    by (destruct (_state w); reflexivity).
  unfold eval, emits, exec.
  destruct (SerialConnectionManager.openSerial serialService newWebSocket ty w)
    as [st w'] eqn:Heq.
  unfold SerialConnectionManager.openSerial in Heq. unmonad.
  rewrite Hcfg in Heq. cbn [negb] in Heq. rewrite Hinc in Heq.
  unfold SerialConnectionManager.setState in Heq. unmonad.
  rewrite Hatt, Hnew in Heq. cbn [negb andb] in Heq.
  unfold createWsConnection in Heq. unmonad. cbn [Status.isOK andb] in Heq.
  simpl in Heq.
  destruct (bool_decide (ty = Serial.Monitor)); simpl in Heq;
    [destruct (wsPort w) as [n |]; simpl in Heq;
      [destruct (n =? 0); simpl in Heq;
        [| destruct (newWebSocket n); simpl in Heq] |] |];
    injection Heq as <- <-; simpl;
    (split; [reflexivity |]); (split; [reflexivity |]);
    first [ exists []; split; [now rewrite app_nil_r | reflexivity]
          | eexists; split; [reflexivity | reflexivity] ].
Qed.

(** ** The plotter window *)

(** C9: when a window handle exists, [connect()] of the plotter
    contribution focuses that window and returns: the handle stays, no
    window is opened and the manager is not asked for anything, so no
    [openSerial(Plotter)] is made. *)
Theorem plotter_connect_focuses_existing_window
    (c : PlotterFrontendContribution.Contribution serialService)
    (h : nat) (opened : option nat) :
  PlotterFrontendContribution.window c = Some h ->
  PlotterFrontendContribution.connect serialService newWebSocket opened c =
    (tt,
     PlotterFrontendContribution.mkContribution (Some h)
       (set_trace serialService
          (trace (PlotterFrontendContribution.serialConnection c) ++
             [WindowFocus h])
          (PlotterFrontendContribution.serialConnection c))).
Proof.
  intros Hwin. unfold PlotterFrontendContribution.connect.
  rewrite Hwin. unfold PlotterFrontendContribution.call. unmonad.
  now rewrite Hwin.
Qed.

(* ------------------------------------------------------------------ *)
(** ** Further properties of [setConfig] *)

Lemma set_config_same (w : World) : set_config serialService (config w) w = w.
Proof. now destruct w. Qed.

Lemma setConfig_config (newConfig : Config) (w : World) :
  config (exec (setConfig newConfig) w) = newConfig.
Proof.
  rewrite setConfig_eq.
  destruct (negb _ && _ && _); [| reflexivity].
  destruct (connect_frame (exec disconnect (propagated newConfig w)))
    as [(_ & Hc & _) _].
  destruct (disconnect_frame (propagated newConfig w)) as (_ & Hd & _).
  now rewrite Hc, Hd.
Qed.

Lemma setConfig_unchanged (w : World) :
  exec (setConfig (config w)) w = w.
Proof.
  rewrite setConfig_eq, bool_decide_eq_true_2 by reflexivity.
  apply set_config_same.
Qed.

(** X1: whatever the state, [setConfig] leaves the stored configuration
    equal to the update, field by field: a field the update omits (or
    holds as [undefined]) is reset, not kept. *)
Theorem setConfig_stores_update (newConfig : Config) (w : World) :
  config (exec (setConfig newConfig) w) = newConfig /\
  (board newConfig = None -> board (config (exec (setConfig newConfig) w)) = None) /\
  (port newConfig = None -> port (config (exec (setConfig newConfig) w)) = None).
Proof.
  rewrite setConfig_config. auto.
Qed.

(** X2: [setConfig] with the configuration already stored does nothing at
    all, so applying the same update a second time changes nothing and
    reaches no collaborator. *)
Theorem setConfig_twice (newConfig : Config) (w : World) :
  exec (setConfig (config w)) w = w /\
  exec (setConfig newConfig) (exec (setConfig newConfig) w)
    = exec (setConfig newConfig) w.
Proof.
  split; [apply setConfig_unchanged |].
  rewrite <- (setConfig_config newConfig w) at 1.
  apply setConfig_unchanged.
Qed.

(** ** Further properties of [openSerial] and [closeSerial] *)

(** X6: uploads and serial access exclude each other: while an upload
    runs, opening the first consumer is refused with an error message and
    NOT_CONNECTED; the consumer is not recorded and the backend is not
    called. *)
Theorem openSerial_refused_while_uploading (ty : Serial.Type_) (w : World) :
  isSerialConfig (config w) = true ->
  _state w = [] ->
  uploading w = true ->
  openSerial ty w =
    (Status.NOT_CONNECTED,
     set_trace serialService
       (trace w ++ [Notify SevError CannotOpenWhenUploading]) w).
Proof.
  intros Hcfg Hst Hup.
  unfold SerialConnectionManager.openSerial. unmonad.
  rewrite Hcfg. cbn [negb]. rewrite Hst.
  assert (Hinc : includes ty [] = false)
    by (apply bool_decide_eq_false_2, not_elem_of_nil).
  rewrite Hinc. cbn beta iota.
  unfold SerialConnectionManager.setState. unmonad.
  rewrite Hst. simpl. rewrite Hup. reflexivity.
Qed.

Lemma openSerial_ok_attached (ty : Serial.Type_) (w : World) :
  Status.isOK (eval (openSerial ty) w) = true ->
  isSerialConfig (config w) = true /\
  ty ∈ _state (exec (openSerial ty) w).
Proof.
  unfold eval, exec.
  destruct (SerialConnectionManager.openSerial serialService newWebSocket ty w)
    as [st w'] eqn:Heq.
  unfold SerialConnectionManager.openSerial in Heq. unmonad.
  cbn [fst snd]. intros Hok.
  destruct (isSerialConfig (config w)); simpl in Heq;
    [| injection Heq as <- <-; discriminate Hok].
  split; [reflexivity |].
  destruct (includes ty (_state w)) eqn:Hinc.
  { injection Heq as <- <-. now apply bool_decide_eq_true_1 in Hinc. }
  destruct (setState_frame (_state w ++ [ty]) w) as [_ Hstate].
  unfold eval, exec in Hstate.
  destruct (SerialConnectionManager.setState serialService (_state w ++ [ty]) w)
    as [st1 w1].
  cbn [fst snd] in *.
  assert (Hw' : st = st1 /\ _state w' = _state w1).
  { destruct (_ && _); [| now injection Heq as <- <-].
    destruct (createWsConnection_spec w1) as (Hc & _).
    unfold exec in Hc.
    destruct (createWsConnection serialService newWebSocket w1).
    cbn [fst snd] in *. now injection Heq as <- <-. }
  destruct Hw' as [-> ->]. rewrite (Hstate Hok).
  apply elem_of_app. right. left.
Qed.

(** X7: whenever [openSerial] reports an OK status, the configuration is
    complete and the consumer is attached afterwards. *)
Theorem openSerial_ok_attaches (ty : Serial.Type_) (w : World) :
  Status.isOK (eval (openSerial ty) w) = true ->
  isSerialConfig (config w) = true /\
  ty ∈ _state (exec (openSerial ty) w).
Proof. apply openSerial_ok_attached. Qed.

(** *** The list of wanted consumers *)

Lemma setState_sets (newState : Serial.State) (w : World) :
  uploading w = false \/ widgetsAttached (_state w) = true ->
  _state (exec (setState newState) w) = newState.
Proof.
  intros Hcase. unfold SerialConnectionManager.setState. unmonad.
  destruct (widgetsAttached (_state w)) eqn:Hatt; cbn [negb andb].
  - destruct (negb (widgetsAttached newState)); frame_calls; reflexivity.
  - destruct Hcase as [Hup | Habs]; [| discriminate Habs].
    destruct (widgetsAttached newState); [| reflexivity].
    rewrite Hup. frame_calls. reflexivity.
Qed.

Lemma indexOf_None (ty : Serial.Type_) (st : Serial.State) :
  indexOf ty st = None -> ty ∉ st.
Proof.
  intros Hidx Hin.
  assert (Hinc : includes ty st = true) by now apply bool_decide_eq_true_2.
  rewrite indexOf_includes, Hidx in Hinc. discriminate Hinc.
Qed.

Lemma indexOf_fresh (ty : Serial.Type_) (st : Serial.State) :
  ty ∉ st -> indexOf ty st = None.
Proof.
  intros Hnin. destruct (indexOf ty st) eqn:Hidx; [| reflexivity].
  exfalso. apply Hnin.
  assert (Hinc : includes ty st = true) by now rewrite indexOf_includes, Hidx.
  now apply bool_decide_eq_true_1 in Hinc.
Qed.

Lemma splice1_subset (x : Serial.Type_) (index : nat) (st : Serial.State) :
  x ∈ splice1 index st -> x ∈ st.
Proof.
  revert index. induction st as [| y st IH]; intros [| i]; simpl; intros Hin;
    try exact Hin.
  - now right.
  - apply elem_of_cons in Hin as [-> | Hin]; [left | right; eauto].
Qed.

Lemma splice1_NoDup (index : nat) (st : Serial.State) :
  NoDup st -> NoDup (splice1 index st).
Proof.
  revert index. induction st as [| y st IH]; intros [| i] Hnd; simpl;
    try exact Hnd.
  - now apply NoDup_cons_1_2 in Hnd.
  - apply NoDup_cons in Hnd as [Hy Hnd]. apply NoDup_cons. split.
    + intros Hin. apply Hy. eapply splice1_subset, Hin.
    + now apply IH.
Qed.

Lemma splice1_removes (ty : Serial.Type_) (st : Serial.State) (index : nat) :
  NoDup st -> indexOf ty st = Some index -> ty ∉ splice1 index st.
Proof.
  revert index. induction st as [| y st IH]; intros index Hnd Hidx;
    [discriminate Hidx |].
  apply NoDup_cons in Hnd as [Hy Hnd]. simpl in Hidx.
  destruct (decide (y = ty)) as [-> | Hne].
  - injection Hidx as <-. exact Hy.
  - destruct (indexOf ty st) as [i |] eqn:Hi; [| discriminate Hidx].
    injection Hidx as <-. simpl. intros Hin.
    apply elem_of_cons in Hin as [-> | Hin]; [now apply Hne |].
    now apply (IH i).
Qed.

Lemma indexOf_app_last (ty : Serial.Type_) (st : Serial.State) :
  ty ∉ st -> indexOf ty (st ++ [ty]) = Some (length st).
Proof.
  induction st as [| y st IH]; intros Hnin; simpl.
  - now destruct (decide (ty = ty)).
  - apply not_elem_of_cons in Hnin as [Hne Hnin].
    destruct (decide (y = ty)) as [-> | _]; [contradiction |].
    now rewrite IH.
Qed.

Lemma splice1_app_last (x : Serial.Type_) (st : Serial.State) :
  splice1 (length st) (st ++ [x]) = st.
Proof. induction st as [| y st IH]; simpl; [reflexivity | now rewrite IH]. Qed.

Lemma closeSerial_state_eq (ty : Serial.Type_) (w : World) :
  _state (exec (closeSerial ty) w) =
    match indexOf ty (_state w) with
    | Some index => splice1 index (_state w)
    | None => _state w
    end.
Proof.
  unfold exec.
  destruct (SerialConnectionManager.closeSerial serialService ty w)
    as [st w'] eqn:Heq.
  unfold SerialConnectionManager.closeSerial in Heq. unmonad.
  destruct (indexOf ty (_state w)) as [index |] eqn:Hidx;
    [| now injection Heq as <- <-].
  assert (Hatt : widgetsAttached (_state w) = true).
  { destruct (_state w); [discriminate Hidx | reflexivity]. }
  pose proof (setState_sets (splice1 index (_state w)) w (or_intror Hatt))
    as Hs.
  unfold exec in Hs.
  destruct (SerialConnectionManager.setState serialService _ w) as [st1 w1].
  cbn [fst snd] in *.
  destruct (webSocket w1); [destruct (_ && _) |]; simpl in Heq;
    now injection Heq as <- <-.
Qed.

Lemma closeSerial_not_attached (ty : Serial.Type_) (w : World) :
  ty ∉ _state w -> closeSerial ty w = (Status.OK, w).
Proof.
  intros Hnin. unfold SerialConnectionManager.closeSerial. unmonad.
  now rewrite indexOf_fresh.
Qed.

Lemma openSerial_state_fresh (ty : Serial.Type_) (w : World) :
  _state (exec (openSerial ty) w) = _state w \/
  ((ty ∉ _state w) /\
   _state (exec (openSerial ty) w) = _state w ++ [ty]).
Proof.
  destruct (includes ty (_state w)) eqn:Hinc.
  - left. unfold SerialConnectionManager.openSerial. unmonad.
    destruct (isSerialConfig (config w)); simpl; [| reflexivity].
    now rewrite Hinc.
  - apply bool_decide_eq_false_1 in Hinc.
    destruct (openSerial_state ty w) as [Hs | Hs]; [now left | now right].
Qed.

Lemma perform_keeps_NoDup (op : Op) (w : World) :
  NoDup (_state w) -> NoDup (_state (exec (perform op) w)).
Proof.
  intros Hnd.
  destruct op as [c | ty | ty | e | | | data | p | b p | id];
    unfold SerialConnectionManager.perform; cbn beta iota;
    rewrite ?exec_discard.
  - now rewrite setConfig_keeps_state.
  - destruct (openSerial_state_fresh ty w) as [-> | [Hnin ->]];
      [exact Hnd |].
    apply NoDup_app. repeat split; [exact Hnd | | apply NoDup_singleton].
    intros x Hx Hx'. apply list_elem_of_singleton in Hx'. now subst.
  - rewrite closeSerial_state_eq.
    destruct (indexOf ty (_state w)); [now apply splice1_NoDup | exact Hnd].
  - now rewrite handleError_keeps_state.
  - now destruct (connect_frame w) as [(-> & _) _].
  - now destruct (disconnect_frame w) as (-> & _).
  - unfold send. unmonad. now destruct (isOpen w).
  - exact Hnd.
  - rewrite handleBoardConfigChange_eq. now rewrite setConfig_keeps_state.
  - unfold timerFires. unmonad.
    destruct (bool_decide _); [| exact Hnd]. simpl.
    frame_calls. simpl in *.
    now destruct Hc as [(-> & _) _].
Qed.

Lemma performAll_app (ops1 ops2 : list (@Op Board Port)) (w : World) :
  performAll (ops1 ++ ops2) w = performAll ops2 (performAll ops1 w).
Proof. unfold performAll. apply fold_left_app. Qed.

Lemma performAll_NoDup (ops : list (@Op Board Port)) (w : World) :
  NoDup (_state w) -> NoDup (_state (performAll ops w)).
Proof.
  revert w. induction ops as [| op ops IH]; intros w Hnd; [exact Hnd |].
  apply (IH (exec (perform op) w)). now apply perform_keeps_NoDup.
Qed.

(** X3: along every run from start-up no consumer is recorded twice in
    the list of wanted consumers. *)
Theorem wanted_consumers_NoDup (ops : list (@Op Board Port))
    (model : SerialModel) (b : SerialService.session serialService) :
  NoDup (_state (performAll ops (new serialService model b))).
Proof. apply performAll_NoDup. apply NoDup_nil_2. Qed.

(** X4: [closeSerial] withdraws the consumer: when no consumer is
    recorded twice (which X3 gives on every run), the closed consumer is
    not wanted afterwards, whatever status the backend reports, and
    closing it once more does nothing and reports OK. *)
Theorem closeSerial_detaches (ty : Serial.Type_) (w : World) :
  NoDup (_state w) ->
  (ty ∉ _state (exec (closeSerial ty) w)) /\
  closeSerial ty (exec (closeSerial ty) w)
    = (Status.OK, exec (closeSerial ty) w).
Proof.
  intros Hnd.
  assert (Hnin : ty ∉ _state (exec (closeSerial ty) w)).
  { rewrite closeSerial_state_eq.
    destruct (indexOf ty (_state w)) as [index |] eqn:Hidx.
    - now apply splice1_removes.
    - now apply indexOf_None. }
  split; [exact Hnin | now apply closeSerial_not_attached].
Qed.

(** X5: opening a consumer and closing it again restores the list of
    wanted consumers, when the configuration is complete and no upload
    runs. *)
Theorem openSerial_closeSerial_state (ty : Serial.Type_) (w : World) :
  isSerialConfig (config w) = true ->
  uploading w = false ->
  ty ∉ _state w ->
  _state (exec (openSerial ty) w) = _state w ++ [ty] /\
  _state (exec (closeSerial ty) (exec (openSerial ty) w)) = _state w.
Proof.
  intros Hcfg Hup Hnin.
  assert (Hopen : _state (exec (openSerial ty) w) = _state w ++ [ty]).
  { unfold exec.
    destruct (SerialConnectionManager.openSerial serialService newWebSocket ty w)
      as [st w'] eqn:Heq.
    unfold SerialConnectionManager.openSerial in Heq. unmonad.
    rewrite Hcfg in Heq. cbn [negb] in Heq.
    assert (Hinc : includes ty (_state w) = false)
      by now apply bool_decide_eq_false_2.
    rewrite Hinc in Heq.
    pose proof (setState_sets (_state w ++ [ty]) w (or_introl Hup)) as Hs.
    unfold exec in Hs.
    destruct (SerialConnectionManager.setState serialService _ w) as [st1 w1].
    cbn [fst snd] in *.
    destruct (_ && _); [| now injection Heq as <- <-].
    destruct (createWsConnection_spec w1) as (Hc & _).
    unfold exec in Hc.
    destruct (createWsConnection serialService newWebSocket w1).
    cbn [fst snd] in *. injection Heq as <- <-. congruence. }
  split; [exact Hopen |].
  rewrite closeSerial_state_eq, Hopen, indexOf_app_last by exact Hnin.
  apply splice1_app_last.
Qed.

(** X8: closing a consumer while another one stays wanted is bookkeeping
    only: the status is OK and no backend call is made. *)
Theorem closeSerial_remaining_consumer
    (ty : Serial.Type_) (index : nat) (w : World) :
  indexOf ty (_state w) = Some index ->
  widgetsAttached (splice1 index (_state w)) = true ->
  eval (closeSerial ty) w = Status.OK /\
  exists evs,
    emits (closeSerial ty) w evs /\ backendCalls evs = [].
Proof.
  intros Hidx Hrest.
  assert (Hatt : widgetsAttached (_state w) = true).
  { destruct (_state w); [discriminate Hidx | reflexivity]. }
  unfold eval, emits, exec.
  destruct (SerialConnectionManager.closeSerial serialService ty w)
    as [st w'] eqn:Heq.
  unfold SerialConnectionManager.closeSerial in Heq. unmonad.
  rewrite Hidx in Heq.
  unfold SerialConnectionManager.setState in Heq. unmonad.
  rewrite Hatt, Hrest in Heq. cbn [negb andb] in Heq. simpl in Heq.
  destruct (webSocket w) as [sock |];
    [destruct (bool_decide (ty = Serial.Monitor)) |];
    simpl in Heq; injection Heq as <- <-; simpl;
    (split; [reflexivity |]);
    first [ exists []; split; [now rewrite app_nil_r | reflexivity]
          | eexists; split; [reflexivity | reflexivity] ].
Qed.

(** ** What reaches the collaborators *)

Lemma adds_ok_ret {A : Type} (a : A) : adds_ok (ret serialService a).
Proof. intros w. exists []. simpl. now rewrite app_nil_r. Qed.

Lemma adds_ok_gets {A : Type} (f : World -> A) :
  adds_ok (gets serialService f).
Proof. intros w. exists []. simpl. now rewrite app_nil_r. Qed.

Lemma adds_ok_modify (f : World -> World) :
  (forall w, trace (f w) = trace w) -> adds_ok (modify serialService f).
Proof. intros Hf w. exists []. simpl. now rewrite Hf, app_nil_r. Qed.

Lemma adds_ok_emit (e : Event Board Port) :
  event_ok e -> adds_ok (emit serialService e).
Proof. intros He w. exists [e]. simpl. split; [reflexivity | now constructor]. Qed.

Lemma adds_ok_bind {A B : Type} (m : M serialService A)
    (k : A -> M serialService B) :
  adds_ok m -> (forall a, adds_ok (k a)) -> adds_ok (bind serialService m k).
Proof.
  intros Hm Hk w. unfold bind.
  destruct (Hm w) as (evs1 & H1 & Hok1).
  destruct (m w) as [a w1]. cbn [snd] in H1.
  destruct (Hk a w1) as (evs2 & H2 & Hok2).
  exists (evs1 ++ evs2). split.
  - now rewrite H2, H1, app_assoc.
  - now apply Forall_app.
Qed.

Lemma adds_ok_backend_connect (c : Config) :
  isSerialConfig c = true -> adds_ok (serialService_connect serialService c).
Proof.
  intros Hc w. unfold serialService_connect.
  destruct (SerialService.connect serialService c (backend w)).
  exists [BackendConnect c]. simpl. split; [reflexivity | now constructor].
Qed.

Lemma adds_ok_backend_disconnect :
  adds_ok (serialService_disconnect serialService).
Proof.
  intros w. unfold serialService_disconnect.
  destruct (SerialService.disconnect serialService (backend w)).
  exists [BackendDisconnect]. simpl. split; [reflexivity | now constructor].
Qed.

Lemma adds_ok_setTimeout (ms : Z) :
  1000 <= ms <= 9000 -> adds_ok (setTimeout serialService ms).
Proof.
  intros Hms w. exists [SetTimeout (nextTimer w) ms]. simpl.
  split; [reflexivity | now constructor].
Qed.

Lemma adds_ok_clearTimeout (id : nat) :
  adds_ok (clearTimeout serialService id).
Proof.
  intros w. exists [ClearTimeout id]. simpl.
  split; [reflexivity | now constructor].
Qed.

(** One step through a computation built from the pieces above. *)
Ltac adds_ok_leaf :=
  first
    [ apply adds_ok_ret
    | apply adds_ok_gets
    | apply adds_ok_backend_disconnect
    | apply adds_ok_clearTimeout
    | apply adds_ok_emit; exact I
    | apply adds_ok_modify; intros; reflexivity ].

Tactic Notation "bind_ok" ident(x) :=
  apply adds_ok_bind; [try adds_ok_leaf | intros x].

Lemma connect_adds_ok : adds_ok connect.
Proof.
  unfold SerialConnectionManager.connect, serialService_isSerialPortOpen.
  bind_ok isOpen. destruct isOpen; [adds_ok_leaf |].
  bind_ok c.
  destruct (isSerialConfig c) eqn:Hc; cbn [negb]; [| adds_ok_leaf].
  bind_ok status; [now apply adds_ok_backend_connect | adds_ok_leaf].
Qed.

Lemma disconnect_adds_ok : adds_ok disconnect.
Proof.
  unfold SerialConnectionManager.disconnect, serialService_isSerialPortOpen.
  bind_ok isOpen. destruct isOpen; cbn [negb]; [| adds_ok_leaf].
  bind_ok status.
  bind_ok u; [destruct (Status.isOK status); adds_ok_leaf | adds_ok_leaf].
Qed.

Lemma setConfig_adds_ok (newConfig : Config) : adds_ok (setConfig newConfig).
Proof.
  unfold SerialConnectionManager.setConfig, core_isUploading.
  bind_ok cur. bind_ok u. bind_ok attached. bind_ok isUploading.
  destruct (_ && _); [| adds_ok_leaf].
  bind_ok c. bind_ok u1.
  bind_ok u2; [apply disconnect_adds_ok |].
  bind_ok u3; [apply connect_adds_ok | adds_ok_leaf].
Qed.

Lemma setState_adds_ok (newState : Serial.State) : adds_ok (setState newState).
Proof.
  unfold SerialConnectionManager.setState, core_isUploading, messageService.
  bind_ok oldState.
  destruct (_ && _).
  - bind_ok status; [apply disconnect_adds_ok |].
    bind_ok u. adds_ok_leaf.
  - destruct (_ && _).
    + bind_ok isUploading. destruct isUploading.
      * bind_ok u. adds_ok_leaf.
      * bind_ok status; [apply connect_adds_ok |].
        bind_ok u. adds_ok_leaf.
    + bind_ok u. adds_ok_leaf.
Qed.

Lemma createWsConnection_adds_ok :
  adds_ok (createWsConnection serialService newWebSocket).
Proof.
  unfold createWsConnection.
  bind_ok p. destruct p as [n |]; [| adds_ok_leaf].
  destruct (n =? 0); [adds_ok_leaf |].
  destruct (newWebSocket n); [| adds_ok_leaf].
  bind_ok u. bind_ok u1. adds_ok_leaf.
Qed.

Lemma openSerial_adds_ok (ty : Serial.Type_) : adds_ok (openSerial ty).
Proof.
  unfold SerialConnectionManager.openSerial, messageService.
  bind_ok c.
  destruct (negb _); [bind_ok u; adds_ok_leaf |].
  bind_ok st.
  destruct (includes _ _); [adds_ok_leaf |].
  bind_ok status; [apply setState_adds_ok |].
  bind_ok u; [| adds_ok_leaf].
  destruct (_ && _); [| adds_ok_leaf].
  bind_ok u1; [apply createWsConnection_adds_ok | adds_ok_leaf].
Qed.

Lemma closeSerial_adds_ok (ty : Serial.Type_) : adds_ok (closeSerial ty).
Proof.
  unfold SerialConnectionManager.closeSerial.
  bind_ok st.
  destruct (indexOf ty st); [| adds_ok_leaf].
  bind_ok status; [apply setState_adds_ok |].
  bind_ok ws.
  bind_ok u; [| adds_ok_leaf].
  destruct ws; [destruct (_ && _) |]; [| adds_ok_leaf | adds_ok_leaf].
  bind_ok u1. adds_ok_leaf.
Qed.

Lemma handleError_adds_ok (e : Error) : adds_ok (handleError e).
Proof.
  unfold SerialConnectionManager.handleError, serialService_isSerialPortOpen,
    SerialConnectionManager.classify, messageService.
  bind_ok isOpen. destruct isOpen; cbn [negb]; [| adds_ok_leaf].
  bind_ok u.
  { destruct (SerialError.code e) as [[] |];
      first [adds_ok_leaf | bind_ok u1; adds_ok_leaf]. }
  bind_ok attached. destruct attached; [| adds_ok_leaf].
  bind_ok errs.
  destruct (10 <=? length errs)%nat eqn:Hlen.
  { bind_ok u1. adds_ok_leaf. }
  apply Nat.leb_gt in Hlen.
  bind_ok previous.
  bind_ok u1; [destruct previous; adds_ok_leaf |].
  bind_ok u2.
  bind_ok id; [| adds_ok_leaf].
  apply adds_ok_setTimeout.
  destruct (length errs) as [| n]; simpl; lia.
Qed.

Lemma perform_adds_ok (op : Op) : adds_ok (perform op).
Proof.
  destruct op as [c | ty | ty | e | | | data | p | b p | id];
    unfold SerialConnectionManager.perform.
  - apply setConfig_adds_ok.
  - bind_ok u; [apply openSerial_adds_ok | adds_ok_leaf].
  - bind_ok u; [apply closeSerial_adds_ok | adds_ok_leaf].
  - apply handleError_adds_ok.
  - bind_ok u; [apply connect_adds_ok | adds_ok_leaf].
  - bind_ok u; [apply disconnect_adds_ok | adds_ok_leaf].
  - unfold send, serialService_isSerialPortOpen.
    bind_ok u; [| adds_ok_leaf].
    bind_ok isOpen. destruct (negb isOpen); [adds_ok_leaf |].
    bind_ok eol. bind_ok u1. adds_ok_leaf.
  - unfold handleWebSocketChanged. adds_ok_leaf.
  - unfold handleBoardConfigChange.
    bind_ok baud. apply setConfig_adds_ok.
  - unfold timerFires.
    bind_ok pending.
    destruct (bool_decide _); [| adds_ok_leaf].
    bind_ok u.
    bind_ok u1; [apply connect_adds_ok | adds_ok_leaf].
Qed.

Lemma performAll_trace_ok (ops : list (@Op Board Port)) (w : World) :
  Forall event_ok (trace w) -> Forall event_ok (trace (performAll ops w)).
Proof.
  revert w. induction ops as [| op ops IH]; intros w Hw; [exact Hw |].
  apply (IH (exec (perform op) w)).
  destruct (perform_adds_ok op w) as (evs & Ht & Hok).
  unfold exec. rewrite Ht. now apply Forall_app.
Qed.

(** X9: a partial configuration never reaches the backend: on every run
    from start-up, each backend connect the coordinator makes carries a
    board, a port and a non-zero baud rate. *)
Theorem backend_connects_carry_complete_config
    (ops : list (@Op Board Port)) (model : SerialModel)
    (b : SerialService.session serialService) (c : Config) :
  BackendConnect c ∈ trace (performAll ops (new serialService model b)) ->
  exists (bd : Board) (p : Port) (rate : Z),
    c = mkConfig (Some bd) (Some p) (Some rate) /\ rate <> 0.
Proof.
  intros Hin.
  assert (Hall : Forall event_ok
                   (trace (performAll ops (new serialService model b))))
    by (apply performAll_trace_ok; constructor).
  rewrite Forall_forall in Hall. specialize (Hall _ Hin). simpl in Hall.
  destruct c as [[bd |] [p |] [rate |]]; try discriminate Hall.
  exists bd, p, rate. split; [reflexivity |].
  unfold isSerialConfig in Hall. simpl in Hall.
  intros ->. discriminate Hall.
Qed.

(** X10: the backoff stays between one and nine seconds: on every run
    from start-up, each timer the coordinator sets is at least 1000 ms and
    at most 9000 ms ahead. *)
Theorem reconnect_delays_bounded
    (ops : list (@Op Board Port)) (model : SerialModel)
    (b : SerialService.session serialService) (id : nat) (ms : Z) :
  SetTimeout id ms ∈ trace (performAll ops (new serialService model b)) ->
  1000 <= ms <= 9000.
Proof.
  intros Hin.
  assert (Hall : Forall event_ok
                   (trace (performAll ops (new serialService model b))))
    by (apply performAll_trace_ok; constructor).
  rewrite Forall_forall in Hall. exact (Hall _ Hin).
Qed.

(** ** Further properties of the timers and the error history *)

Lemma same_timers_length (w w' : World) :
  same_timers w w' -> length (timers w') = length (timers w).
Proof. intros (_ & -> & _). reflexivity. Qed.

Lemma perform_keeps_single_timer (op : Op) (w : World) :
  single_timer w -> single_timer (exec (perform op) w).
Proof.
  intros [Htr Hlen]. split; [now apply perform_keeps_timers_tracked |].
  destruct op as [c | ty | ty | e | | | data | p | b p | id];
    unfold SerialConnectionManager.perform; cbn beta iota;
    rewrite ?exec_discard.
  - now rewrite (same_timers_length _ _ (setConfig_same_timers c w)).
  - now rewrite (same_timers_length _ _ (openSerial_same_timers ty w)).
  - now rewrite (same_timers_length _ _ (closeSerial_same_timers ty w)).
  - destruct (classify_frame e w) as (_ & _ & _ & Htm & _).
    destruct (isOpen w) eqn:Hopen; [| now rewrite handleError_closed].
    rewrite handleError_eq by exact Hopen. cbv zeta.
    destruct (widgetsAttached _); [| now rewrite Htm].
    destruct (_ <=? _)%nat; [simpl; now rewrite Htm |].
    simpl. rewrite cancelled_tracked by exact Htr. simpl. lia.
  - destruct (connect_frame w) as [(_ & _ & _ & _ & _ & _ & _ & -> & _) _].
    exact Hlen.
  - destruct (disconnect_frame w) as (_ & _ & _ & _ & _ & _ & _ & -> & _).
    exact Hlen.
  - unfold send. unmonad. now destruct (isOpen w).
  - exact Hlen.
  - rewrite handleBoardConfigChange_eq.
    now rewrite (same_timers_length _ _ (setConfig_same_timers _ w)).
  - unfold timerFires. unmonad.
    destruct (bool_decide _); [| exact Hlen]. simpl.
    frame_calls. simpl in *.
    destruct Hc as [(_ & _ & _ & _ & _ & _ & _ & -> & _) _].
    etransitivity; [apply length_filter | exact Hlen].
Qed.

Lemma performAll_single_timer (ops : list (@Op Board Port)) (w : World) :
  single_timer w -> single_timer (performAll ops w).
Proof.
  revert w. induction ops as [| op ops IH]; intros w Hw; [exact Hw |].
  apply (IH (exec (perform op) w)). now apply perform_keeps_single_timer.
Qed.

(** X11: on every run from start-up at most one reconnect timer is
    pending, and it is the one whose id the manager keeps, so a retry is
    never scheduled twice. *)
Theorem at_most_one_reconnect_pending
    (ops : list (@Op Board Port)) (model : SerialModel)
    (b : SerialService.session serialService) :
  let w := performAll ops (new serialService model b) in
  (length (timers w) <= 1)%nat /\
  forall t, In t (timers w) -> reconnectTimeout w = Some (fst t).
Proof.
  cbv zeta.
  destruct (performAll_single_timer ops (new serialService model b))
    as [Htr Hlen].
  - split; [apply new_timers_tracked | simpl; lia].
  - split; [exact Hlen | exact Htr].
Qed.

(** X12: after the handler has processed an error with the session open
    and a consumer attached, the error history holds fewer than 10
    entries, however long it was before. *)
Theorem handleError_history_below_bound (e : Error) (w : World) :
  isOpen w = true ->
  widgetsAttached (_state w) = true ->
  (length (serialErrors (exec (handleError e) w)) < 10)%nat.
Proof.
  intros Hopen Hatt. rewrite handleError_eq by exact Hopen. cbv zeta.
  rewrite Hatt.
  destruct (10 <=? length (serialErrors (exec (classify e) w)))%nat eqn:Hlen.
  - simpl. lia.
  - apply Nat.leb_gt in Hlen. exact Hlen.
Qed.

(** X13: with the session open and no consumer attached, the handler only
    classifies the error: a DeviceBusy error is appended to the history
    without any bound check, no timer is set or cleared, and nothing is
    reset. *)
Theorem handleError_without_consumer (e : Error) (w : World) :
  isOpen w = true ->
  widgetsAttached (_state w) = false ->
  let w' := exec (handleError e) w in
  serialErrors w' =
    match SerialError.code e with
    | Some SerialError.DEVICE_BUSY => serialErrors w ++ [e]
    | _ => serialErrors w
    end /\
  timers w' = timers w /\
  reconnectTimeout w' = reconnectTimeout w /\
  forallb isNotification
    (skipn (length (trace w)) (trace w')) = true.
Proof.
  intros Hopen Hatt. cbv zeta.
  rewrite handleError_eq by exact Hopen. cbv zeta. rewrite Hatt.
  unfold SerialConnectionManager.classify.
  destruct (SerialError.code e) as [[] |]; unmonad; simpl;
    repeat split;
    first [ now rewrite skipn_all
          | now rewrite drop_app_length ].
Qed.


(** ** Further properties of the plotter contribution *)

Lemma openSerial_keeps_NoDup (ty : Serial.Type_) (w : World) :
  NoDup (_state w) -> NoDup (_state (exec (openSerial ty) w)).
Proof.
  intros Hnd.
  destruct (openSerial_state_fresh ty w) as [-> | [Hnin ->]]; [exact Hnd |].
  apply NoDup_app. repeat split; [exact Hnd | | apply NoDup_singleton].
  intros x Hx Hx'. apply list_elem_of_singleton in Hx'. now subst.
Qed.

Lemma closeSerial_removes (ty : Serial.Type_) (w : World) :
  NoDup (_state w) -> ty ∉ _state (exec (closeSerial ty) w).
Proof.
  intros Hnd. rewrite closeSerial_state_eq.
  destruct (indexOf ty (_state w)) as [index |] eqn:Hidx.
  - now apply splice1_removes.
  - now apply indexOf_None.
Qed.

(** With a consumer attached before and after, [setState] only records
    the new state. *)
Lemma setState_attached (newState : Serial.State) (w : World) :
  widgetsAttached (_state w) = true ->
  widgetsAttached newState = true ->
  setState newState w = (Status.OK, set__state serialService newState w).
Proof.
  intros Hold Hnew. unfold SerialConnectionManager.setState. unmonad.
  now rewrite Hold, Hnew.
Qed.

(** What the withdrawal of the plotter adds to the trace: the backend
    disconnect when the plotter was the only consumer and the session is
    open, and nothing otherwise. *)
Lemma closeSerial_Plotter_trace (w : World) :
  trace (exec (closeSerial Serial.Plotter) w) =
    trace w ++
      if bool_decide (_state w = [Serial.Plotter]) && isOpen w
      then [BackendDisconnect]
      else [].
Proof.
  assert (Hno : bool_decide (Serial.Plotter = Serial.Monitor) = false)
    by now apply bool_decide_eq_false_2.
  unfold exec.
  destruct (SerialConnectionManager.closeSerial serialService
              Serial.Plotter w) as [st w'] eqn:Heq.
  unfold SerialConnectionManager.closeSerial in Heq. unmonad.
  rewrite Hno in Heq.
  destruct (bool_decide (_state w = [Serial.Plotter])) eqn:Honly.
  - apply bool_decide_eq_true_1 in Honly.
    assert (Hatt : widgetsAttached (_state w) = true) by now rewrite Honly.
    assert (Hidx : indexOf Serial.Plotter (_state w) = Some O)
      by now rewrite Honly.
    rewrite Hidx in Heq. rewrite Honly in Heq at 1. cbn [splice1] in Heq.
    rewrite setState_detach in Heq by exact Hatt.
    unfold eval, exec in Heq. cbn [andb].
    destruct (isOpen w) eqn:Hopen.
    + rewrite disconnect_calls_backend in Heq by exact Hopen.
      cbn [fst snd] in Heq. rewrite andb_false_r in Heq.
      destruct (Status.isOK _); simpl in Heq;
        (destruct (webSocket w); injection Heq as <- <-; reflexivity).
    + rewrite disconnect_already_closed in Heq by exact Hopen.
      cbn [fst snd] in Heq. rewrite andb_false_r in Heq. simpl in Heq.
      destruct (webSocket w); injection Heq as <- <-; simpl;
        now rewrite app_nil_r.
  - apply bool_decide_eq_false_1 in Honly. cbn [andb]. rewrite app_nil_r.
    destruct (indexOf Serial.Plotter (_state w)) as [index |] eqn:Hidx;
      [| now injection Heq as <- <-].
    assert (Hatt : widgetsAttached (_state w) = true).
    { destruct (_state w); [discriminate Hidx | reflexivity]. }
    assert (Hrest : widgetsAttached (splice1 index (_state w)) = true).
    { destruct (_state w) as [| x [| y rest]]; [discriminate Hidx | |].
      - simpl in Hidx. destruct (decide (x = Serial.Plotter)) as [-> | _];
          [now contradiction Honly | discriminate Hidx].
      - now destruct index. }
    rewrite setState_attached in Heq by assumption.
    cbn [fst snd] in Heq. rewrite andb_false_r in Heq. simpl in Heq.
    destruct (webSocket w); now injection Heq as <- <-.
Qed.

(** X15: [connect()] of the plotter contribution without a window.  When
    [openSerial(Plotter)] reports OK and a relay port is stored, the
    window is opened with that port and the handle is whatever
    [window.open] returns, the plotter staying attached even when that is
    [null].  Otherwise no window is opened and the user is told at once;
    the withdrawal of the plotter, which is not awaited, completes after
    the message: its backend disconnect, made when the plotter was the
    only consumer and the session is open, comes after the message in the
    trace, and the plotter is not left attached. *)
Theorem plotter_connect_without_window
    (c : PlotterFrontendContribution.Contribution serialService)
    (opened : option nat) :
  PlotterFrontendContribution.window c = None ->
  NoDup (_state (PlotterFrontendContribution.serialConnection c)) ->
  let w := PlotterFrontendContribution.serialConnection c in
  let w1 := exec (openSerial Serial.Plotter) w in
  let c' :=
    snd (PlotterFrontendContribution.connect serialService newWebSocket
           opened c) in
  let w' := PlotterFrontendContribution.serialConnection c' in
  if Status.isOK (eval (openSerial Serial.Plotter) w)
     && relayPortKnown (wsPort w1)
  then
    PlotterFrontendContribution.window c' = opened /\
    Serial.Plotter ∈ _state w' /\
    exists p init,
      wsPort w1 = Some p /\ init_wsPort init = p /\
      init_connected init = isOpen w1 /\
      trace w' = trace w1 ++ [WindowOpen init]
  else
    PlotterFrontendContribution.window c' = None /\
    (Serial.Plotter ∉ _state w') /\
    trace w' =
      trace w1 ++
        Notify SevError CouldNotOpenPlotter ::
        if bool_decide (_state w1 = [Serial.Plotter]) && isOpen w1
        then [BackendDisconnect]
        else [].
Proof.
  intros Hwin Hnd. cbv zeta.
  destruct c as [win w].
  cbn [PlotterFrontendContribution.window
       PlotterFrontendContribution.serialConnection] in *.
  subst win.
  pose proof (openSerial_ok_attached Serial.Plotter w) as Hatt.
  pose proof (openSerial_keeps_NoDup Serial.Plotter _ Hnd) as Hnd1.
  unfold PlotterFrontendContribution.connect.
  cbn [PlotterFrontendContribution.window].
  unfold PlotterFrontendContribution.call.
  cbn [PlotterFrontendContribution.window
       PlotterFrontendContribution.serialConnection].
  unfold eval, exec in *.
  destruct (SerialConnectionManager.openSerial serialService newWebSocket
              Serial.Plotter w)
    as [status w1].
  cbn [fst snd] in *. unfold getWsPort, gets. cbn [fst snd
    PlotterFrontendContribution.serialConnection
    PlotterFrontendContribution.window].
  assert (Hfail :
    let c' :=
      snd (PlotterFrontendContribution.couldNotOpen serialService
             (PlotterFrontendContribution.mkContribution None w1)) in
    PlotterFrontendContribution.window c' = None /\
    (Serial.Plotter ∉ _state (PlotterFrontendContribution.serialConnection c')) /\
    trace (PlotterFrontendContribution.serialConnection c') =
      trace w1 ++
        Notify SevError CouldNotOpenPlotter ::
        if bool_decide (_state w1 = [Serial.Plotter]) && isOpen w1
        then [BackendDisconnect]
        else []).
  { cbv zeta. unfold PlotterFrontendContribution.couldNotOpen,
      PlotterFrontendContribution.call.
    cbn [PlotterFrontendContribution.serialConnection
         PlotterFrontendContribution.window].
    unfold messageService, emit, modify.
    cbn [fst snd PlotterFrontendContribution.serialConnection
         PlotterFrontendContribution.window].
    set (told := set_trace serialService
                   (trace w1 ++ [Notify SevError CouldNotOpenPlotter]) w1).
    pose proof (closeSerial_removes Serial.Plotter told Hnd1) as Hrem.
    pose proof (closeSerial_Plotter_trace told) as Htr.
    unfold exec in Hrem, Htr.
    destruct (SerialConnectionManager.closeSerial serialService
                Serial.Plotter told) as [st2 w2].
    cbn [fst snd PlotterFrontendContribution.serialConnection
         PlotterFrontendContribution.window] in *.
    split; [reflexivity |]. split; [exact Hrem |].
    rewrite Htr. unfold told. simpl. now rewrite <- app_assoc. }
  destruct (wsPort w1) as [p |] eqn:Hp; cbn [relayPortKnown];
    [| rewrite andb_false_r; exact Hfail].
  destruct (Status.isOK status && negb (p =? 0)) eqn:Hgo; [| exact Hfail].
  apply andb_true_iff in Hgo as [Hok _].
  destruct (Hatt Hok) as [_ Hin].
  unfold PlotterFrontendContribution.open, PlotterFrontendContribution.call,
    PlotterFrontendContribution.set_window, isBESerialConnected.
  unmonad. simpl.
  split; [reflexivity |]. split; [exact Hin |].
  eexists p, _. repeat split; reflexivity.
Qed.

(** X16: the handler of the window-closed signal clears the handle and
    withdraws the plotter, so that it is not wanted afterwards; a second
    signal, or a signal without a window, changes nothing. *)
Theorem onCloseChildWindow_detaches
    (c : PlotterFrontendContribution.Contribution serialService) :
  NoDup (_state (PlotterFrontendContribution.serialConnection c)) ->
  let c' :=
    snd (PlotterFrontendContribution.onCloseChildWindow serialService c) in
  PlotterFrontendContribution.window c' = None /\
  (PlotterFrontendContribution.window c <> None ->
   Serial.Plotter ∉ _state (PlotterFrontendContribution.serialConnection c')) /\
  (PlotterFrontendContribution.window c = None -> c' = c) /\
  PlotterFrontendContribution.onCloseChildWindow serialService c' = (tt, c').
Proof.
  intros Hnd. cbv zeta.
  unfold PlotterFrontendContribution.onCloseChildWindow.
  destruct c as [[h |] w]; cbn [PlotterFrontendContribution.window
    PlotterFrontendContribution.serialConnection] in *.
  - unfold PlotterFrontendContribution.set_window,
      PlotterFrontendContribution.call.
    cbn [PlotterFrontendContribution.window
         PlotterFrontendContribution.serialConnection fst snd].
    pose proof (closeSerial_removes Serial.Plotter w Hnd) as Hrem.
    unfold exec in Hrem.
    destruct (SerialConnectionManager.closeSerial serialService
                Serial.Plotter w) as [st w'].
    cbn [fst snd PlotterFrontendContribution.window
         PlotterFrontendContribution.serialConnection] in *.
    repeat split; [auto | intros Habs; discriminate Habs].
  - repeat split; intros Habs; now contradiction Habs.
Qed.

End CoordinatorProperties.

(* ------------------------------------------------------------------ *)
(** * The coordinator on concrete runs *)

Section Runs.

Import Fixtures.

#[local] Abbreviation openPort svc w :=
  (SerialService.isSerialPortOpen svc (backend w)).

(** ** Reconfiguration *)

(** A change of the baud rate with the monitor open on the uno: the
    update object holds the rate and nothing else. *)
Lemma setConfig_baud_rate_only_drops_board_and_port_witness :
  let w := monitoring reliable false in
  let update : SerialConfig Board Port := mkConfig None None (Some 115200) in
  let w' := exec (setConfig address reliable update) w in
  (config w = uno /\ isSerialConfig (config w) = true /\
   openPort reliable w = true /\
   widgetsAttached (_state w) = true /\ uploading w = false) /\
  board (config w') = None /\
  port (config w') = None /\
  baudRate (config w') = Some 115200 /\
  emits (setConfig address reliable update) w
    [UpdateWsConfigParam (Some 115200) None; BackendDisconnect].
Proof.
  cbv zeta. split.
  - vm_compute. repeat split.
  - apply (setConfig_baud_rate_only_drops_board_and_port address reliable
             (monitoring reliable false) 115200);
      vm_compute; reflexivity.
Defined.

(** The same change with the board and the port carried along: the
    reconnect is made with the merged configuration. *)
Example setConfig_full_update_run :
  let w := monitoring reliable false in
  let merged :=
    mkConfig (Some "arduino:avr:uno") (Some "/dev/ttyACM0") (Some 115200) in
  (config w = uno /\ openPort reliable w = true /\
   widgetsAttached (_state w) = true /\ uploading w = false) /\
  config (exec (setConfig address reliable merged) w) = merged /\
  emits (setConfig address reliable merged) w
    [UpdateWsConfigParam (Some 115200) (Some "/dev/ttyACM0");
     BackendDisconnect;
     BackendConnect merged].
Proof.
  cbv zeta. split.
  - vm_compute. repeat split.
  - apply (setConfig_full_update_reconnects address reliable
             (monitoring reliable false) "arduino:avr:uno" "/dev/ttyACM0"
             115200);
      vm_compute; first [reflexivity | discriminate].
Qed.

(** At a backend that keeps the port open on the disconnect, [connect()]
    finds the session open and makes no backend connect. *)
Example setConfig_full_update_stuck_run :
  let v := monitoring stuck false in
  let merged :=
    mkConfig (Some "arduino:avr:uno") (Some "/dev/ttyACM0") (Some 115200) in
  (config v = uno /\ openPort stuck v = true /\
   widgetsAttached (_state v) = true /\ uploading v = false) /\
  emits (setConfig address stuck merged) v
    [UpdateWsConfigParam (Some 115200) (Some "/dev/ttyACM0");
     BackendDisconnect].
Proof.
  cbv zeta. vm_compute. repeat split.
Qed.

Lemma setConfig_propagates_with_reconnect_witness :
  let w := monitoring reliable false in
  let update :=
    mkConfig (Some "arduino:avr:uno") (Some "/dev/ttyACM0") (Some 115200) in
  update <> config w /\
  exists evs,
    emits (setConfig address reliable update) w
      (UpdateWsConfigParam (Some 115200) (Some "/dev/ttyACM0") :: evs).
Proof.
  cbv zeta.
  assert (Hne : mkConfig (Some "arduino:avr:uno") (Some "/dev/ttyACM0")
                  (Some 115200) <> config (monitoring reliable false))
    by (vm_compute; discriminate).
  split; [exact Hne |].
  exact (setConfig_propagates_with_reconnect address reliable _ _ Hne).
Defined.

(** C6, as stated, fails: with no consumer attached a changed baud rate
    is stored and nothing is sent to the relay channel. *)
Lemma setConfig_propagation_counterexample :
  let w := idle reliable false in
  let update :=
    mkConfig (Some "arduino:avr:uno") (Some "/dev/ttyACM0") (Some 115200) in
  let w' := exec (setConfig address reliable update) w in
  update <> config w /\
  widgetsAttached (_state w) = false /\
  config w' = update /\
  trace w' = trace w /\
  UpdateWsConfigParam (Some 115200) (Some "/dev/ttyACM0") ∉ trace w'.
Proof.
  cbv zeta. vm_compute. repeat split; try discriminate.
  intros Hin. inversion Hin.
Qed.

(** ** The error handler *)

(** Three consecutive DeviceBusy errors with the plotter attached: the
    third one leaves a single pending timer, 3000 ms ahead. *)
Lemma handleError_schedules_reconnect_witness :
  let w :=
    run [handleError reliable busyError; handleError reliable busyError]
      (plotting reliable false) in
  let w' := exec (handleError reliable busyError) w in
  (openPort reliable w = true /\ widgetsAttached (_state w) = true /\
   length (history_after reliable busyError w) = 3%nat) /\
  reconnectTimeout w = Some 2%nat /\
  reconnectTimeout w' = Some 3%nat /\
  timers w' = [(3%nat, 3000)].
Proof.
  cbv zeta.
  split; [vm_compute; repeat split |].
  split; [reflexivity |].
  destruct (handleError_schedules_reconnect reliable busyError
              (run [handleError reliable busyError;
                    handleError reliable busyError]
                 (plotting reliable false)))
    as (_ & Hid & Hpending & _);
    [vm_compute; reflexivity | vm_compute; reflexivity | vm_compute; lia |].
  rewrite Hid, Hpending. vm_compute. split; reflexivity.
Defined.

(** The delays of the first three retries grow by a second each. *)
Example three_busy_errors_delays :
  let w :=
    run (replicate 3 (handleError reliable busyError))
      (plotting reliable false) in
  List.filter (fun ev => negb (isNotification ev)) (trace w) =
    [BackendConnect uno;
     SetTimeout 1 1000;
     ClearTimeout 1; SetTimeout 2 2000;
     ClearTimeout 2; SetTimeout 3 3000].
Proof. vm_compute. reflexivity. Qed.

(** Nine DeviceBusy errors recorded, then the tenth. *)
Lemma handleError_gives_up_at_bound_witness :
  let w :=
    run (replicate 9 (handleError reliable busyError))
      (plotting reliable false) in
  let w' := exec (handleError reliable busyError) w in
  (openPort reliable w = true /\ widgetsAttached (_state w) = true /\
   length (serialErrors w) = 9%nat /\
   length (history_after reliable busyError w) = 10%nat) /\
  serialErrors w' = [] /\
  timers w' = timers w /\
  trace w' =
    trace w ++
      [Notify SevWarn ConnectionBusy; Notify SevWarn FailedReconnect].
Proof.
  cbv zeta.
  split; [vm_compute; repeat split |].
  destruct (handleError_gives_up_at_bound reliable busyError
              (run (replicate 9 (handleError reliable busyError))
                 (plotting reliable false)))
    as (Herrs & Hpending & _);
    [vm_compute; reflexivity | vm_compute; reflexivity | vm_compute; lia |].
  split; [exact Herrs |]. split; [exact Hpending |].
  vm_compute. reflexivity.
Defined.

Lemma serialErrors_cleared_at_bound_only_witness :
  let w :=
    run (replicate 9 (handleError reliable busyError))
      (monitoring reliable false) in
  let update :=
    mkConfig (Some "arduino:avr:uno") (Some "/dev/ttyACM0") (Some 115200) in
  (openPort reliable w = true /\ widgetsAttached (_state w) = true /\
   length (serialErrors w) = 9%nat /\
   length (history_after reliable busyError w) = 10%nat) /\
  serialErrors (exec (handleError reliable busyError) w) = [] /\
  serialErrors (exec (setConfig address reliable update) w) = serialErrors w.
Proof.
  cbv zeta.
  split; [vm_compute; repeat split |].
  destruct (serialErrors_cleared_at_bound_only address reliable busyError
              (mkConfig (Some "arduino:avr:uno") (Some "/dev/ttyACM0")
                 (Some 115200))
              (run (replicate 9 (handleError reliable busyError))
                 (monitoring reliable false)))
    as [Hcleared Hkept].
  split; [| exact Hkept].
  apply Hcleared; [vm_compute; reflexivity | vm_compute; reflexivity |].
  vm_compute. lia.
Defined.

(** C8, as stated, fails: after one recorded error, a baud-rate change
    reconnects successfully and the history still holds that error. *)
Lemma serialErrors_after_reconfiguration_counterexample :
  let w := run [handleError reliable busyError] (monitoring reliable false) in
  let update :=
    mkConfig (Some "arduino:avr:uno") (Some "/dev/ttyACM0") (Some 115200) in
  let w' := exec (setConfig address reliable update) w in
  serialErrors w = [busyError] /\
  emits (setConfig address reliable update) w
    [UpdateWsConfigParam (Some 115200) (Some "/dev/ttyACM0");
     BackendDisconnect; BackendConnect update] /\
  openPort reliable w' = true /\
  config w' = update /\
  serialErrors w' = [busyError] /\
  serialErrors w' <> [].
Proof.
  cbv zeta. vm_compute. repeat split. discriminate.
Qed.

(** ** Closing consumers and the relay *)

Lemma closeSerial_last_consumer_witness :
  let w := plotting reliable false in
  let w' := exec (closeSerial reliable Serial.Plotter) w in
  (_state w = [Serial.Plotter] /\ openPort reliable w = true /\
   wsPort w = Some 8080) /\
  (exists evs,
     emits (closeSerial reliable Serial.Plotter) w evs /\
     backendCalls evs = [BackendDisconnect]) /\
  _state w' = [] /\
  wsPort w' = None.
Proof.
  cbv zeta.
  split; [vm_compute; repeat split |].
  destruct (closeSerial_last_consumer reliable Serial.Plotter
              (plotting reliable false))
    as (Hcalls & Hstate & Hport);
    [vm_compute; reflexivity | vm_compute; reflexivity |].
  split; [exact Hcalls |]. split; [exact Hstate |].
  apply Hport. vm_compute. reflexivity.
Defined.

(** C7, as stated, fails: when the backend reports the disconnect as not
    OK, the one backend disconnect is made and the relay port is kept. *)
Lemma closeSerial_keeps_relay_port_counterexample :
  let w := plotting stuck false in
  let w' := exec (closeSerial stuck Serial.Plotter) w in
  (_state w = [Serial.Plotter] /\ openPort stuck w = true) /\
  eval (closeSerial stuck Serial.Plotter) w = Status.NOT_CONNECTED /\
  emits (closeSerial stuck Serial.Plotter) w [BackendDisconnect] /\
  wsPort w' = Some 8080 /\
  wsPort w' <> None.
Proof.
  cbv zeta. vm_compute. repeat split. discriminate.
Qed.


(** ** [connect] *)

(** C3 at a backend that refuses the connection: one backend connect is
    made, it reports NOT_CONNECTED, and [connect()] returns the boolean
    [false] and not that status. *)
Theorem connect_returns_coerced_status :
  let w := idle busy false in
  openPort busy w = false /\
  isSerialConfig (config w) = true /\
  fst (SerialService.connect busy (config w) (backend w))
    = Status.NOT_CONNECTED /\
  emits (connect busy) w [BackendConnect uno] /\
  eval (connect busy) w = Status.Coerced false /\
  eval (connect busy) w
    <> fst (SerialService.connect busy (config w) (backend w)).
Proof.
  cbv zeta. vm_compute. repeat split. discriminate.
Qed.

(** Two calls in a row at the reliable backend. *)
Example connect_twice_run :
  let w := idle reliable false in
  eval (connect reliable) w = Status.Coerced true /\
  connect reliable (exec (connect reliable) w)
    = (Status.ALREADY_CONNECTED, exec (connect reliable) w) /\
  trace (exec (connect reliable) (exec (connect reliable) w))
    = [BackendConnect uno].
Proof. vm_compute. repeat split. Qed.

(** ** Invariants along runs *)

Lemma reliable_reports_ok : disconnect_reports_ok reliable.
Proof. intros [] Hopen; [reflexivity | discriminate Hopen]. Qed.

(** At the reliable backend a relay socket never outlives the monitor,
    whatever the coordinator is asked to do. *)
Lemma reliable_relay_with_monitor
    (ops : list (@Op Board Port)) :
  relay_with_monitor reliable
    (performAll address reliable newWebSocket ops (new reliable model false)).
Proof.
  apply performAll_invariants, reliable_reports_ok.
Qed.

(** ** Sending *)

Example send_hello :
  emits (send reliable "hello") (plotting reliable false)
    [SendMessageToSerial ("hello" ++ LF)] /\
  send reliable "hello" (idle reliable false)
    = (Status.NOT_CONNECTED, idle reliable false).
Proof. vm_compute. split; reflexivity. Qed.

(** ** The plotter window *)

Lemma plotter_connect_focuses_existing_window_witness :
  let c0 :=
    PlotterFrontendContribution.mkContribution None (plotting reliable false) in
  let c1 :=
    snd (PlotterFrontendContribution.connect reliable newWebSocket (Some 7%nat) c0) in
  let c2 :=
    snd (PlotterFrontendContribution.connect reliable newWebSocket (Some 8%nat) c1) in
  PlotterFrontendContribution.window c1 = Some 7%nat /\
  PlotterFrontendContribution.window c2 = Some 7%nat /\
  trace (PlotterFrontendContribution.serialConnection c2) =
    trace (PlotterFrontendContribution.serialConnection c1) ++ [WindowFocus 7] /\
  _state (PlotterFrontendContribution.serialConnection c2) =
    _state (PlotterFrontendContribution.serialConnection c1).
Proof.
  cbv zeta.
  assert (Hwin :
    PlotterFrontendContribution.window
      (snd (PlotterFrontendContribution.connect reliable newWebSocket
              (Some 7%nat)
              (PlotterFrontendContribution.mkContribution None
                 (plotting reliable false)))) = Some 7%nat)
    by (vm_compute; reflexivity).
  split; [exact Hwin |].
  rewrite (plotter_connect_focuses_existing_window reliable newWebSocket
             _ 7%nat (Some 8%nat) Hwin).
  repeat split.
Defined.

End Runs.

(* ------------------------------------------------------------------ *)
(** * The upload flags of CoreServiceImpl *)

Section UploadFlags.

Import CoreServiceImpl.

(** The ['data'] handlers only append to the output: the chunks of the
    events, in order, and the flags stay as they are. *)
Lemma receive_spec (events : list Response) (s : t) :
  uploading (receive events s) = uploading s /\
  uploadInProgress (receive events s) = uploadInProgress s /\
  output (receive events s) = output s ++ chunks events.
Proof.
  unfold receive. revert s.
  induction events as [| resp events IH]; intros s; simpl.
  - now rewrite app_nil_r.
  - destruct (IH (onData resp s)) as (Hu & Hp & Ho).
    rewrite Hu, Hp, Ho. unfold onData, appendToOutput. simpl.
    now rewrite <- !app_assoc.
Qed.

(** Once the response stream is awaited, the [finally] block resets both
    flags, however the stream settles. *)
Lemma doUpload_resets_flags_after_stream (task : string) (a : Awaits) (s : t) :
  compile_client a = Resolves ->
  compile_stream a = Resolves ->
  serial_disconnect a = Resolves ->
  core_client a = Resolves ->
  fst (doUpload task a s) = result_stream a /\
  isUploading (snd (doUpload task a s)) = false /\
  uploadInProgress (snd (doUpload task a s)) = false.
Proof.
  intros Hcc Hcs Hd Hc. unfold doUpload, compile.
  rewrite Hcc, Hcs, Hd, Hc.
  destruct (result_stream a); simpl; auto.
Qed.

Lemma burnBootloader_resets_flags_after_stream (a : Awaits) (s : t) :
  serial_disconnect a = Resolves ->
  core_client a = Resolves ->
  fst (burnBootloader a s) = result_stream a /\
  isUploading (snd (burnBootloader a s)) = false /\
  uploadInProgress (snd (burnBootloader a s)) = false.
Proof.
  intros Hd Hc. unfold burnBootloader. rewrite Hd, Hc.
  destruct (result_stream a); simpl; auto.
Qed.

(** A rejected compilation leaves the flags as they were. *)
Lemma doUpload_compile_rejects (task : string) (a : Awaits) (s : t) :
  fst (compile a s) = Rejects ->
  fst (doUpload task a s) = Rejects /\
  uploading (snd (doUpload task a s)) = uploading s /\
  uploadInProgress (snd (doUpload task a s)) = uploadInProgress s.
Proof.
  destruct (receive_spec (compile_data a) s) as (Hu & Hp & _).
  unfold doUpload, compile.
  destruct (compile_client a); [destruct (compile_stream a) |]; simpl;
    intros Hc; try discriminate; auto.
Qed.

(** C10 at a failing input: the core client cannot be obtained (its
    promise rejects) once the flags are raised.  [burnBootloader], [upload]
    and [uploadUsingProgrammer] then throw before their [try] block is
    entered, and both flags stay raised: [isUploading()] answers [true]. *)
Theorem upload_flags_stay_raised_on_early_rejection :
  let s := mk false false [] in
  let a := mkAwaits Resolves [] Resolves Resolves Rejects [] Resolves in
  burnBootloader a s = (Rejects, mk true true []) /\
  upload a s = (Rejects, mk true true [CompilationComplete]) /\
  uploadUsingProgrammer a s = (Rejects, mk true true [CompilationComplete]) /\
  isUploading (snd (burnBootloader a s)) = true /\
  isUploading (snd (upload a s)) = true /\
  isUploading (snd (uploadUsingProgrammer a s)) = true.
Proof. cbv zeta. repeat split. Qed.

(** The same when the awaited [serialService.disconnect()] rejects. *)
Example upload_flags_stay_raised_on_disconnect_rejection :
  let s := mk false false [] in
  let a := mkAwaits Resolves [] Resolves Rejects Resolves [] Resolves in
  burnBootloader a s = (Rejects, mk true true []) /\
  upload a s = (Rejects, mk true true [CompilationComplete]).
Proof. cbv zeta. split; reflexivity. Qed.

End UploadFlags.

(* ------------------------------------------------------------------ *)
(** * Properties of WebSocketServiceImpl *)

Section WebSocketService.

Import WebSocketServiceImpl.

Lemma indexOf_range (ws : Client) (l : list Client) :
  -1 <= indexOf ws l < Z.of_nat (length l).
Proof.
  induction l as [| x l IH]; simpl; [lia |].
  destruct (decide (x = ws)); [lia |].
  destruct (indexOf ws l <? 0) eqn:Hneg; [lia |].
  apply Z.ltb_ge in Hneg. lia.
Qed.

Lemma indexOf_absent (ws : Client) (l : list Client) :
  ws ∉ l -> indexOf ws l = -1.
Proof.
  induction l as [| x l IH]; intros Hnin; simpl; [reflexivity |].
  apply not_elem_of_cons in Hnin as [Hne Hnin].
  destruct (decide (x = ws)) as [-> | _]; [contradiction |].
  now rewrite IH.
Qed.

Lemma indexOf_present (ws : Client) (l : list Client) :
  ws ∈ l -> 0 <= indexOf ws l.
Proof.
  induction l as [| x l IH]; intros Hin; [inversion Hin |]. simpl.
  destruct (decide (x = ws)) as [-> | Hne]; [lia |].
  apply elem_of_cons in Hin as [-> | Hin]; [contradiction |].
  specialize (IH Hin).
  destruct (indexOf ws l <? 0) eqn:Hneg; [apply Z.ltb_lt in Hneg; lia | lia].
Qed.

Lemma splice1_present_cons (ws x : Client) (l : list Client) :
  x <> ws -> ws ∈ l ->
  splice1 (indexOf ws (x :: l)) (x :: l) = x :: splice1 (indexOf ws l) l.
Proof.
  intros Hne Hin.
  pose proof (indexOf_present ws l Hin) as Hpos.
  pose proof (indexOf_range ws l) as Hrange.
  unfold splice1. simpl indexOf.
  destruct (decide (x = ws)) as [-> | _]; [contradiction |].
  destruct (indexOf ws l <? 0) eqn:Hneg; [apply Z.ltb_lt in Hneg; lia |].
  destruct (indexOf ws l + 1 <? 0) eqn:Hneg'; [apply Z.ltb_lt in Hneg'; lia |].
  destruct (indexOf ws l <? 0) eqn:Hneg2; [discriminate |].
  rewrite !Z.min_l by (simpl length; lia).
  replace (Z.to_nat (indexOf ws l + 1)) with (S (Z.to_nat (indexOf ws l)))
    by lia.
  reflexivity.
Qed.

Lemma splice1_first (ws : Client) (l : list Client) :
  splice1 (indexOf ws (ws :: l)) (ws :: l) = l.
Proof.
  unfold splice1. simpl indexOf.
  destruct (decide (ws = ws)); [| contradiction].
  change (0 <? 0) with false. cbv iota.
  rewrite Z.min_l by lia. reflexivity.
Qed.

Lemma filter_absent (ws : Client) (l : list Client) :
  ws ∉ l -> filter (fun x : Client => x <> ws) l = l.
Proof.
  induction l as [| x l IH]; intros Hnin; [reflexivity |].
  apply not_elem_of_cons in Hnin as [Hne Hnin].
  rewrite filter_cons_True by (intros E; now apply Hne).
  now rewrite IH.
Qed.

(** Closing a registered client removes its first occurrence. *)
Lemma splice1_present (ws : Client) (l : list Client) :
  ws ∈ l ->
  S (length (splice1 (indexOf ws l) l)) = length l /\
  (NoDup l ->
   splice1 (indexOf ws l) l = filter (fun x : Client => x <> ws) l).
Proof.
  induction l as [| x l IH]; intros Hin; [inversion Hin |].
  destruct (decide (x = ws)) as [-> | Hne].
  - rewrite splice1_first. split; [reflexivity |].
    intros Hnd. apply NoDup_cons in Hnd as [Hx _].
    rewrite filter_cons_False by (intros H; now apply H).
    now rewrite filter_absent.
  - apply elem_of_cons in Hin as [-> | Hin]; [contradiction |].
    rewrite splice1_present_cons by assumption.
    destruct (IH Hin) as [Hlen Hfilter]. split.
    + simpl. now rewrite Hlen.
    + intros Hnd. apply NoDup_cons in Hnd as [_ Hnd].
      rewrite filter_cons_True by exact Hne.
      now rewrite Hfilter.
Qed.

(** A close for a client that is not registered: [indexOf] gives [-1] and
    the splice takes the last client. *)
Lemma splice1_absent (ws : Client) (l : list Client) :
  ws ∉ l -> splice1 (indexOf ws l) l = removelast l.
Proof.
  intros Hnin. rewrite indexOf_absent by exact Hnin.
  unfold splice1. cbn [Z.ltb Z.compare].
  destruct l as [| x l _] using rev_ind; [reflexivity |].
  rewrite removelast_last, length_app. simpl length.
  replace (Z.to_nat (Z.max (Z.of_nat (length l + 1) + -1) 0))
    with (length l) by lia.
  rewrite delete_middle. apply app_nil_r.
Qed.

Lemma indexOf_app_fresh (ws : Client) (l : list Client) :
  ws ∉ l -> indexOf ws (l ++ [ws]) = Z.of_nat (length l).
Proof.
  induction l as [| x l IH]; intros Hnin; simpl.
  - now destruct (decide (ws = ws)).
  - apply not_elem_of_cons in Hnin as [Hne Hnin].
    destruct (decide (x = ws)) as [-> | _]; [contradiction |].
    rewrite IH by exact Hnin.
    destruct (Z.of_nat (length l) <? 0) eqn:Hneg;
      [apply Z.ltb_lt in Hneg; lia | lia].
Qed.

Lemma sendMessage_eq (throws : Client -> bool) (message : string) (s : t) :
  sendMessage throws message s =
    mk (wsClients s)
      (fired s ++
         map (fun w => if throws w then Closed w else Sent w message)
           (wsClients s)).
Proof.
  unfold sendMessage.
  assert (Hgen : forall (l : list Client) (acc : t),
            fold_left
              (fun acc w =>
                 fire (if throws w then Closed w else Sent w message) acc)
              l acc =
            mk (wsClients acc)
              (fired acc ++
                 map (fun w => if throws w then Closed w else Sent w message)
                   l)).
  { induction l as [| w l IH]; intros acc; simpl.
    - rewrite app_nil_r. now destruct acc.
    - rewrite IH. unfold fire. simpl. now rewrite <- app_assoc. }
  apply Hgen.
Qed.

Lemma announced_snoc (evs : list Event) (e : Event) :
  announced (evs ++ [e]) =
    match e with ConnectedClients k => k | _ => announced evs end.
Proof. unfold announced. now rewrite fold_left_app. Qed.

Lemma announced_attempts (evs : list Event) (throws : Client -> bool)
    (message : string) (l : list Client) :
  announced
    (evs ++ map (fun w => if throws w then Closed w else Sent w message) l)
  = announced evs.
Proof.
  induction l as [| w l IH] using rev_ind; [now rewrite app_nil_r |].
  rewrite map_app, app_assoc. simpl map. rewrite announced_snoc.
  now destruct (throws w).
Qed.

(** X17: the listeners of the client count are never out of date: on
    every run of the service the number last announced is the number of
    clients held, and before any announcement there is no client. *)
Theorem announced_is_client_number (ops : list Op) :
  announced (fired (performAll ops new))
    = getConnectedClientsNumber (performAll ops new).
Proof.
  unfold performAll.
  assert (Hgen : forall s,
            announced (fired s) = getConnectedClientsNumber s ->
            announced (fired (fold_left (fun acc op => perform op acc) ops s))
              = getConnectedClientsNumber
                  (fold_left (fun acc op => perform op acc) ops s)).
  { induction ops as [| op ops IH]; intros s Hs; [exact Hs |].
    apply IH. destruct op as [ws | ws | data | throws message]; simpl.
    - unfold addClient. simpl. now rewrite announced_snoc.
    - unfold onclose. simpl. now rewrite announced_snoc.
    - unfold onmessage, fire. simpl. now rewrite announced_snoc.
    - rewrite sendMessage_eq. simpl. now rewrite announced_attempts. }
  now apply Hgen.
Qed.

(** X18: registering a new client and closing it again restores the list
    of clients, and the close is announced with the number held before. *)
Theorem addClient_onclose (ws : Client) (s : t) :
  ws ∉ wsClients s ->
  wsClients (onclose ws (addClient ws s)) = wsClients s /\
  fired (onclose ws (addClient ws s)) =
    fired s ++
      [ConnectedClients (S (length (wsClients s)));
       ConnectedClients (length (wsClients s))].
Proof.
  intros Hnin.
  assert (Hl : splice1 (indexOf ws (wsClients s ++ [ws])) (wsClients s ++ [ws])
               = wsClients s).
  { rewrite indexOf_app_fresh by exact Hnin. unfold splice1.
    destruct (Z.of_nat (length (wsClients s)) <? 0) eqn:Hneg;
      [apply Z.ltb_lt in Hneg; lia |].
    rewrite Z.min_l by (rewrite length_app; simpl; lia).
    rewrite Nat2Z.id. rewrite delete_middle. apply app_nil_r. }
  unfold onclose, addClient. simpl. rewrite Hl. split; [reflexivity |].
  rewrite length_app. simpl. rewrite <- app_assoc. simpl.
  now rewrite Nat.add_1_r.
Qed.

(** X19: the close of a registered client takes exactly one client out;
    when every client is held once, it is that client and the others stay
    in their order. *)
Theorem onclose_registered (ws : Client) (s : t) :
  ws ∈ wsClients s ->
  S (getConnectedClientsNumber (onclose ws s)) = getConnectedClientsNumber s /\
  (NoDup (wsClients s) ->
   wsClients (onclose ws s) = filter (fun x : Client => x <> ws) (wsClients s)).
Proof.
  intros Hin. unfold onclose, getConnectedClientsNumber. simpl.
  now apply splice1_present.
Qed.

(** X20: a close for a client that is not in the list does not leave the
    list alone: [indexOf] answers [-1] and [splice(-1, 1)] takes out the
    client registered last. *)
Theorem onclose_unregistered (ws : Client) (s : t) :
  ws ∉ wsClients s ->
  wsClients (onclose ws s) = removelast (wsClients s) /\
  getConnectedClientsNumber (onclose ws s)
    = Nat.pred (getConnectedClientsNumber s).
Proof.
  intros Hnin. unfold onclose, getConnectedClientsNumber. simpl.
  rewrite splice1_absent by exact Hnin. split; [reflexivity |].
  destruct (wsClients s) as [| x l _] using rev_ind; [reflexivity |].
  rewrite removelast_last, length_app. simpl. lia.
Qed.

(** X21: [sendMessage] makes one attempt per client, in the order of
    registration, and a client whose [send] throws is asked to close
    without stopping the delivery to the others; the list of clients is
    not touched. *)
Theorem sendMessage_attempts_every_client
    (throws : Client -> bool) (message : string) (s : t) :
  wsClients (sendMessage throws message s) = wsClients s /\
  fired (sendMessage throws message s) =
    fired s ++
      map (fun w => if throws w then Closed w else Sent w message)
        (wsClients s) /\
  (forall w, w ∈ wsClients s -> throws w = false ->
             Sent w message ∈ fired (sendMessage throws message s)).
Proof.
  rewrite sendMessage_eq. simpl. repeat split.
  intros w Hin Hw. apply elem_of_app. right.
  apply list_elem_of_fmap. exists w. now rewrite Hw.
Qed.

End WebSocketService.

(* ------------------------------------------------------------------ *)
(** * Properties of the source overrides *)

Section SourceOverridesProperties.

Import SourceOverrides.

Variable fsPath : string -> string.
Variable relative : string -> string -> string.

#[local] Abbreviation merge1 := (mergeOne fsPath relative).
#[local] Abbreviation pathOf sketchUri uri :=
  (relative (fsPath sketchUri) (fsPath uri)).

Lemma truthy_nonempty (content : string) :
  truthy content = true <-> content <> EmptyString.
Proof.
  unfold truthy. split.
  - intros H E. rewrite bool_decide_eq_true_2 in H by exact E. discriminate H.
  - intros Hne. now rewrite bool_decide_eq_false_2.
Qed.

Lemma fold_merge_bindings (sketchPath : string)
    (overrides : list (string * string)) (m : gmap string string)
    (k v : string) :
  fold_left (merge1 sketchPath) overrides m !! k = Some v ->
  m !! k = Some v \/
  exists uri,
    (uri, v) ∈ overrides /\ v <> EmptyString /\
    k = relative sketchPath (fsPath uri).
Proof.
  revert m. induction overrides as [| [uri content] overrides IH];
    intros m Hk; simpl in Hk; [now left |].
  destruct (IH _ Hk) as [Hm | (uri' & Hin & Hne & ->)].
  - unfold mergeOne in Hm. destruct (truthy content) eqn:Ht.
    + destruct (decide (relative sketchPath (fsPath uri) = k)) as [<- | Hneq].
      * rewrite lookup_insert_eq in Hm. injection Hm as <-.
        right. exists uri. split; [left |].
        split; [now apply truthy_nonempty | reflexivity].
      * rewrite lookup_insert_ne in Hm by exact Hneq. now left.
    + now left.
  - right. exists uri'. split; [now right | auto].
Qed.

Lemma fold_merge_frame (sketchPath : string)
    (overrides : list (string * string)) (m : gmap string string)
    (k : string) :
  (forall uri content,
     (uri, content) ∈ overrides -> content <> EmptyString ->
     relative sketchPath (fsPath uri) <> k) ->
  fold_left (merge1 sketchPath) overrides m !! k = m !! k.
Proof.
  revert m. induction overrides as [| [uri content] overrides IH];
    intros m Hother; simpl; [reflexivity |].
  rewrite IH by (intros u c Hin; apply Hother; now right).
  unfold mergeOne. destruct (truthy content) eqn:Ht; [| reflexivity].
  apply lookup_insert_ne. apply (Hother uri content); [left |].
  now apply truthy_nonempty.
Qed.

(** X22: the map of the request never receives an empty content: every
    entry found after [mergeSourceOverrides] was there before or is the
    non-empty content of an override, under the path of that override
    relative to the sketch. *)
Theorem mergeSourceOverrides_entries (sketchUri : string)
    (sourceOverride : list (string * string)) (m : gmap string string)
    (k v : string) :
  mergeSourceOverrides fsPath relative sketchUri sourceOverride m !! k = Some v ->
  m !! k = Some v \/
  exists uri,
    (uri, v) ∈ sourceOverride /\ v <> EmptyString /\
    k = pathOf sketchUri uri.
Proof. apply fold_merge_bindings. Qed.

(** X23: an override whose content is empty is skipped and does not erase
    anything: a path that no non-empty override maps to keeps what the
    map held for it. *)
Theorem mergeSourceOverrides_skips_empty (sketchUri : string)
    (sourceOverride : list (string * string)) (m : gmap string string)
    (k : string) :
  (forall uri content,
     (uri, content) ∈ sourceOverride -> content <> EmptyString ->
     pathOf sketchUri uri <> k) ->
  mergeSourceOverrides fsPath relative sketchUri sourceOverride m !! k = m !! k.
Proof. apply fold_merge_frame. Qed.

(** X24: when the overrides have pairwise different relative paths, every
    override with a non-empty content is found in the map under its
    path. *)
Theorem mergeSourceOverrides_found (sketchUri : string)
    (sourceOverride : list (string * string)) (m : gmap string string)
    (uri content : string) :
  NoDup (map (fun o => pathOf sketchUri (fst o)) sourceOverride) ->
  (uri, content) ∈ sourceOverride ->
  content <> EmptyString ->
  mergeSourceOverrides fsPath relative sketchUri sourceOverride m
    !! pathOf sketchUri uri = Some content.
Proof.
  unfold mergeSourceOverrides. revert m.
  induction sourceOverride as [| [u c] overrides IH]; intros m Hnd Hin Hne;
    [inversion Hin |].
  simpl in Hnd. apply NoDup_cons in Hnd as [Hfresh Hnd]. simpl.
  apply elem_of_cons in Hin as [Heq | Hin].
  - injection Heq as <- <-.
    rewrite fold_merge_frame.
    + unfold mergeOne.
      assert (Ht : truthy content = true) by now apply truthy_nonempty.
      rewrite Ht. apply lookup_insert_eq.
    + intros u' c' Hin' _ Heq. apply Hfresh.
      rewrite <- Heq. apply list_elem_of_fmap. now exists (u', c').
  - now apply IH.
Qed.

End SourceOverridesProperties.

(* ------------------------------------------------------------------ *)
(** * Further properties of the upload flags *)

Section UploadOutcomes.

Import CoreServiceImpl.

(** X25: starting with the flags lowered, [doUpload] leaves them raised
    exactly when the compilation resolved and then the awaited backend
    disconnect or the core client rejected; in every other outcome,
    resolved or thrown, [isUploading()] answers [false] afterwards. *)
Theorem doUpload_flags_characterised (task : string) (a : Awaits) (s : t) :
  uploading s = false ->
  (isUploading (snd (doUpload task a s)) = true <->
   compile_client a = Resolves /\ compile_stream a = Resolves /\
   (serial_disconnect a = Rejects \/ core_client a = Rejects)).
Proof.
  intros Hs.
  destruct (receive_spec (compile_data a) s) as (Hu & _).
  unfold doUpload, compile, isUploading.
  destruct (compile_client a), (compile_stream a), (serial_disconnect a),
    (core_client a), (result_stream a); simpl; rewrite ?Hu, ?Hs;
    split; intros H; try discriminate H; try reflexivity; auto;
    destruct H as (H1 & H2 & [H3 | H3]); discriminate.
Qed.

(** X26: [burnBootloader] leaves the flags raised exactly when the
    awaited backend disconnect or the core client rejects, whatever the
    flags were before. *)
Theorem burnBootloader_flags_characterised (a : Awaits) (s : t) :
  isUploading (snd (burnBootloader a s)) = true <->
  serial_disconnect a = Rejects \/ core_client a = Rejects.
Proof.
  unfold burnBootloader, isUploading.
  destruct (serial_disconnect a), (core_client a), (result_stream a); simpl;
    split; intros H; try discriminate H; try reflexivity; auto;
    destruct H as [H | H]; discriminate.
Qed.

(** X27: an upload resolves exactly when each of its five awaited
    collaborators resolves, and it then has appended to the output, in
    this order, the two chunks of every ['data'] event of the compile
    stream, the notice that the compilation is complete, the two chunks
    of every ['data'] event of the upload stream, and the notice that the
    task is complete. *)
Theorem doUpload_resolves_iff (task : string) (a : Awaits) (s : t) :
  (fst (doUpload task a s) = Resolves <->
   compile_client a = Resolves /\ compile_stream a = Resolves /\
   serial_disconnect a = Resolves /\ core_client a = Resolves /\
   result_stream a = Resolves) /\
  (fst (doUpload task a s) = Resolves ->
   output (snd (doUpload task a s)) =
     output s ++
       chunks (compile_data a) ++ [CompilationComplete] ++
       chunks (result_data a) ++ [TaskComplete task]).
Proof.
  split.
  - unfold doUpload, compile.
    destruct (compile_client a), (compile_stream a), (serial_disconnect a),
      (core_client a), (result_stream a); cbn [fst snd];
      (split; [intros H | intros (H1 & H2 & H3 & H4 & H5)]);
      first [discriminate | repeat split].
  - unfold doUpload, compile.
    destruct (compile_client a), (compile_stream a), (serial_disconnect a),
      (core_client a), (result_stream a); cbn [fst snd];
      intros H; try discriminate H.
    match goal with
    | |- context [receive (result_data a) ?v] =>
        destruct (receive_spec (result_data a) v) as (_ & _ & Hres)
    end.
    destruct (receive_spec (compile_data a) s) as (_ & _ & Hcomp).
    simpl. rewrite Hres. simpl. rewrite Hcomp.
    now rewrite <- !app_assoc.
Qed.

(** X28: [uploading] and the [uploadInProgress] flag of the serial service
    are written together: when they agree before an upload or a
    bootloader burn, they agree afterwards, whatever the outcome. *)
Theorem upload_flags_in_step (task : string) (a : Awaits) (s : t) :
  uploading s = uploadInProgress s ->
  uploading (snd (doUpload task a s))
    = uploadInProgress (snd (doUpload task a s)) /\
  uploading (snd (burnBootloader a s))
    = uploadInProgress (snd (burnBootloader a s)).
Proof.
  intros Hs.
  destruct (receive_spec (compile_data a) s) as (Hu & Hp & _).
  unfold doUpload, burnBootloader, compile.
  destruct (compile_client a), (compile_stream a), (serial_disconnect a),
    (core_client a), (result_stream a); simpl; rewrite ?Hu, ?Hp; auto.
Qed.

End UploadOutcomes.

(* ------------------------------------------------------------------ *)
(** * Further concrete runs *)

Section MoreRuns.

Import Fixtures.

#[local] Abbreviation openPort svc w :=
  (SerialService.isSerialPortOpen svc (backend w)).

(** ** Consumers *)

Lemma closeSerial_detaches_witness :
  let w := monitoring reliable false in
  NoDup (_state w) /\
  (Serial.Monitor ∉ _state (exec (closeSerial reliable Serial.Monitor) w)) /\
  closeSerial reliable Serial.Monitor
      (exec (closeSerial reliable Serial.Monitor) w)
    = (Status.OK, exec (closeSerial reliable Serial.Monitor) w).
Proof.
  cbv zeta.
  assert (Hnd : NoDup (_state (monitoring reliable false))).
  { vm_compute. apply NoDup_cons. split.
    - intros Hin. apply list_elem_of_singleton in Hin. discriminate Hin.
    - apply NoDup_singleton. }
  split; [exact Hnd |].
  exact (closeSerial_detaches reliable Serial.Monitor _ Hnd).
Defined.

Lemma openSerial_closeSerial_state_witness :
  let w := plotting reliable false in
  (isSerialConfig (config w) = true /\ uploading w = false /\
   (Serial.Monitor ∉ _state w)) /\
  _state (exec (openSerial reliable newWebSocket Serial.Monitor) w)
    = [Serial.Plotter; Serial.Monitor] /\
  _state (exec (closeSerial reliable Serial.Monitor)
            (exec (openSerial reliable newWebSocket Serial.Monitor) w))
    = [Serial.Plotter].
Proof.
  cbv zeta.
  assert (Hnin : Serial.Monitor ∉ _state (plotting reliable false)).
  { vm_compute. intros Hin. apply list_elem_of_singleton in Hin.
    discriminate Hin. }
  split; [split; [reflexivity | split; [reflexivity | exact Hnin]] |].
  exact (openSerial_closeSerial_state reliable newWebSocket Serial.Monitor
           (plotting reliable false) eq_refl eq_refl Hnin).
Defined.

(** An upload is running and nothing is opened yet. *)
Definition duringUpload : World reliable :=
  @mkWorld Board Port reliable [] uno [] None None None model false true
    [] 1%nat [].

Lemma openSerial_refused_while_uploading_witness :
  (isSerialConfig (config duringUpload) = true /\
   _state duringUpload = [] /\ uploading duringUpload = true) /\
  openSerial reliable newWebSocket Serial.Monitor duringUpload =
    (Status.NOT_CONNECTED,
     set_trace reliable [Notify SevError CannotOpenWhenUploading]
       duringUpload).
Proof.
  split; [repeat split |].
  exact (openSerial_refused_while_uploading reliable newWebSocket
           Serial.Monitor duringUpload eq_refl eq_refl eq_refl).
Defined.

Lemma openSerial_ok_attaches_witness :
  let w := idle reliable false in
  Status.isOK (eval (openSerial reliable newWebSocket Serial.Plotter) w)
    = true /\
  isSerialConfig (config w) = true /\
  Serial.Plotter ∈ _state (exec (openSerial reliable newWebSocket Serial.Plotter) w).
Proof.
  cbv zeta. split; [reflexivity |].
  exact (openSerial_ok_attaches reliable newWebSocket Serial.Plotter
           (idle reliable false) eq_refl).
Defined.

Lemma closeSerial_remaining_consumer_witness :
  let w := monitoring reliable false in
  (indexOf Serial.Plotter (_state w) = Some 0%nat /\
   widgetsAttached (splice1 0 (_state w)) = true) /\
  eval (closeSerial reliable Serial.Plotter) w = Status.OK /\
  exists evs,
    emits (closeSerial reliable Serial.Plotter) w evs /\ backendCalls evs = [].
Proof.
  cbv zeta. split; [split; reflexivity |].
  exact (closeSerial_remaining_consumer reliable Serial.Plotter 0
           (monitoring reliable false) eq_refl eq_refl).
Defined.

Lemma openSerial_further_consumer_witness :
  let w := plotting reliable false in
  (isSerialConfig (config w) = true /\
   widgetsAttached (_state w) = true /\
   includes Serial.Monitor (_state w) = false) /\
  eval (openSerial reliable newWebSocket Serial.Monitor) w = Status.OK /\
  _state (exec (openSerial reliable newWebSocket Serial.Monitor) w)
    = _state w ++ [Serial.Monitor] /\
  exists evs,
    emits (openSerial reliable newWebSocket Serial.Monitor) w evs /\
    backendCalls evs = [].
Proof.
  cbv zeta. split; [repeat split |].
  exact (openSerial_further_consumer reliable newWebSocket Serial.Monitor
           (plotting reliable false) eq_refl eq_refl eq_refl).
Defined.

(** ** What reaches the collaborators *)

(** The board is chosen, the plotter opened, the relay port advertised,
    and three DeviceBusy errors arrive. *)
Definition busyDay : list (@Op Board Port) :=
  [OpSetConfig uno; OpOpenSerial Serial.Plotter; OpWebSocketChanged 8080;
   OpOpenSerial Serial.Monitor;
   OpHandleError busyError; OpHandleError busyError; OpHandleError busyError].

Lemma backend_connects_carry_complete_config_witness :
  BackendConnect uno
    ∈ trace (performAll address reliable newWebSocket busyDay
               (new reliable model false)) /\
  exists (bd : Board) (p : Port) (rate : Z),
    uno = mkConfig (Some bd) (Some p) (Some rate) /\ rate <> 0.
Proof.
  assert (Hin : BackendConnect uno
                  ∈ trace (performAll address reliable newWebSocket busyDay
                             (new reliable model false)))
    by (vm_compute; left).
  split; [exact Hin |].
  exact (backend_connects_carry_complete_config address reliable newWebSocket
           busyDay model false uno Hin).
Defined.

Lemma reconnect_delays_bounded_witness :
  SetTimeout 3 3000
    ∈ trace (performAll address reliable newWebSocket busyDay
               (new reliable model false)) /\
  1000 <= 3000 <= 9000.
Proof.
  assert (Hin : SetTimeout 3 3000
                  ∈ trace (performAll address reliable newWebSocket busyDay
                             (new reliable model false))).
  { vm_compute. repeat first [left | right]. }
  split; [exact Hin |].
  exact (reconnect_delays_bounded address reliable newWebSocket
           busyDay model false 3%nat 3000 Hin).
Defined.


(** ** The error history *)

Lemma handleError_history_below_bound_witness :
  let w :=
    run (replicate 9 (handleError reliable busyError))
      (plotting reliable false) in
  (openPort reliable w = true /\ widgetsAttached (_state w) = true /\
   length (serialErrors w) = 9%nat) /\
  (length (serialErrors (exec (handleError reliable busyError) w)) < 10)%nat.
Proof.
  cbv zeta. split; [vm_compute; repeat split |].
  apply handleError_history_below_bound; vm_compute; reflexivity.
Defined.

(** The plotter is closed while a retry is pending; the timer then fires
    and reopens the session, with nothing attached. *)
Lemma handleError_without_consumer_witness :
  let w :=
    run [handleError reliable busyError;
         ignore (closeSerial reliable Serial.Plotter);
         timerFires reliable 1]
      (plotting reliable false) in
  let w' := exec (handleError reliable busyError) w in
  (openPort reliable w = true /\ widgetsAttached (_state w) = false /\
   serialErrors w = [busyError]) /\
  serialErrors w' = [busyError; busyError] /\
  timers w' = timers w /\
  reconnectTimeout w' = reconnectTimeout w.
Proof.
  cbv zeta. split; [vm_compute; repeat split |].
  destruct (handleError_without_consumer reliable busyError
              (run [handleError reliable busyError;
                    ignore (closeSerial reliable Serial.Plotter);
                    timerFires reliable 1]
                 (plotting reliable false)))
    as (Herrs & Htimers & Hid & _);
    [vm_compute; reflexivity | vm_compute; reflexivity |].
  rewrite Herrs. split; [vm_compute; reflexivity |].
  split; assumption.
Defined.

(** ** The plotter window *)

Lemma plotter_connect_without_window_witness :
  let c :=
    PlotterFrontendContribution.mkContribution None (idle reliable false) in
  let c' :=
    snd (PlotterFrontendContribution.connect reliable newWebSocket
           (Some 7%nat) c) in
  (PlotterFrontendContribution.window c = None /\
   _state (PlotterFrontendContribution.serialConnection c) = []) /\
  PlotterFrontendContribution.window c' = None /\
  (Serial.Plotter ∉ _state (PlotterFrontendContribution.serialConnection c')) /\
  trace (PlotterFrontendContribution.serialConnection c') =
    [BackendConnect uno; Notify SevError CouldNotOpenPlotter;
     BackendDisconnect].
Proof.
  cbv zeta. split; [split; reflexivity |].
  pose proof (plotter_connect_without_window reliable newWebSocket
                (PlotterFrontendContribution.mkContribution None
                   (idle reliable false))
                (Some 7%nat) eq_refl (NoDup_nil_2 (A:=Serial.Type_))) as H.
  destruct H as (Hwin & Hnin & Htrace).
  split; [exact Hwin |]. split; [exact Hnin |].
  rewrite Htrace. vm_compute. reflexivity.
Defined.

Lemma onCloseChildWindow_detaches_witness :
  let c :=
    PlotterFrontendContribution.mkContribution (Some 7%nat)
      (plotting reliable false) in
  let c' :=
    snd (PlotterFrontendContribution.onCloseChildWindow reliable c) in
  NoDup (_state (PlotterFrontendContribution.serialConnection c)) /\
  PlotterFrontendContribution.window c' = None /\
  (Serial.Plotter ∉ _state (PlotterFrontendContribution.serialConnection c')) /\
  PlotterFrontendContribution.onCloseChildWindow reliable c' = (tt, c').
Proof.
  cbv zeta.
  assert (Hnd : NoDup (_state (plotting reliable false)))
    by (vm_compute; apply NoDup_singleton).
  split; [exact Hnd |].
  destruct (onCloseChildWindow_detaches reliable
              (PlotterFrontendContribution.mkContribution (Some 7%nat)
                 (plotting reliable false)) Hnd)
    as (Hwin & Hnin & _ & Hagain).
  split; [exact Hwin |]. split; [| exact Hagain].
  apply Hnin. discriminate.
Defined.

(** ** The relay server's clients *)

Lemma addClient_onclose_witness :
  let s := WebSocketServiceImpl.addClient 1%nat WebSocketServiceImpl.new in
  (2%nat ∉ WebSocketServiceImpl.wsClients s) /\
  WebSocketServiceImpl.wsClients
    (WebSocketServiceImpl.onclose 2%nat (WebSocketServiceImpl.addClient 2%nat s))
    = [1%nat] /\
  WebSocketServiceImpl.fired
    (WebSocketServiceImpl.onclose 2%nat (WebSocketServiceImpl.addClient 2%nat s))
    = [WebSocketServiceImpl.ConnectedClients 1;
       WebSocketServiceImpl.ConnectedClients 2;
       WebSocketServiceImpl.ConnectedClients 1].
Proof.
  cbv zeta.
  assert (Hnin : 2%nat ∉ WebSocketServiceImpl.wsClients
                   (WebSocketServiceImpl.addClient 1%nat WebSocketServiceImpl.new)).
  { intros Hin. apply list_elem_of_singleton in Hin. discriminate Hin. }
  split; [exact Hnin |].
  exact (addClient_onclose 2%nat _ Hnin).
Defined.

Lemma onclose_registered_witness :
  let s :=
    WebSocketServiceImpl.performAll
      [WebSocketServiceImpl.OpAddClient 1%nat; WebSocketServiceImpl.OpAddClient 2%nat;
       WebSocketServiceImpl.OpAddClient 3%nat] WebSocketServiceImpl.new in
  (2%nat ∈ WebSocketServiceImpl.wsClients s) /\
  NoDup (WebSocketServiceImpl.wsClients s) /\
  WebSocketServiceImpl.getConnectedClientsNumber
    (WebSocketServiceImpl.onclose 2%nat s) = 2%nat /\
  WebSocketServiceImpl.wsClients (WebSocketServiceImpl.onclose 2%nat s)
    = [1%nat; 3%nat].
Proof.
  cbv zeta.
  set (s := WebSocketServiceImpl.performAll _ WebSocketServiceImpl.new).
  assert (Hin : 2%nat ∈ WebSocketServiceImpl.wsClients s)
    by (right; left).
  assert (Hnd : NoDup (WebSocketServiceImpl.wsClients s)).
  { apply (NoDup_ListNoDup [1%nat; 2%nat; 3%nat]). repeat constructor;
      simpl; intuition discriminate. }
  split; [exact Hin |]. split; [exact Hnd |].
  destruct (onclose_registered 2%nat s Hin) as [Hlen Hrest].
  split; [| rewrite (Hrest Hnd); reflexivity].
  apply eq_add_S. rewrite Hlen. reflexivity.
Defined.

Lemma onclose_unregistered_witness :
  let s :=
    WebSocketServiceImpl.performAll
      [WebSocketServiceImpl.OpAddClient 1%nat; WebSocketServiceImpl.OpAddClient 2%nat]
      WebSocketServiceImpl.new in
  (9%nat ∉ WebSocketServiceImpl.wsClients s) /\
  WebSocketServiceImpl.wsClients (WebSocketServiceImpl.onclose 9%nat s)
    = [1%nat] /\
  WebSocketServiceImpl.getConnectedClientsNumber
    (WebSocketServiceImpl.onclose 9%nat s) = 1%nat.
Proof.
  cbv zeta.
  set (s := WebSocketServiceImpl.performAll _ WebSocketServiceImpl.new).
  assert (Hnin : 9%nat ∉ WebSocketServiceImpl.wsClients s).
  { intros Hin. apply elem_of_cons in Hin as [Hin | Hin]; [discriminate Hin |].
    apply list_elem_of_singleton in Hin. discriminate Hin. }
  split; [exact Hnin |].
  exact (onclose_unregistered 9%nat s Hnin).
Defined.

(** ** Source overrides *)

Definition plainPath (uri : string) : string := uri.
Definition plainRelative (sketchPath path : string) : string := path.

Definition twoOverrides : list (string * string) :=
  [("a.ino", "void setup() {}"); ("b.h", "")].

Lemma mergeSourceOverrides_entries_witness :
  SourceOverrides.mergeSourceOverrides plainPath plainRelative "sketch"
    twoOverrides ∅ !! "a.ino" = Some "void setup() {}" /\
  ((∅ : gmap string string) !! "a.ino" = Some "void setup() {}" \/
   exists uri,
     (uri, "void setup() {}") ∈ twoOverrides /\
     "void setup() {}" <> EmptyString /\
     "a.ino" = plainRelative (plainPath "sketch") (plainPath uri)).
Proof.
  assert (Hk : SourceOverrides.mergeSourceOverrides plainPath plainRelative
                 "sketch" twoOverrides ∅ !! "a.ino"
               = Some "void setup() {}")
    by (vm_compute; reflexivity).
  split; [exact Hk |].
  exact (mergeSourceOverrides_entries plainPath plainRelative "sketch"
           twoOverrides ∅ "a.ino" "void setup() {}" Hk).
Defined.

Lemma mergeSourceOverrides_skips_empty_witness :
  let m : gmap string string := {["b.h" := "#pragma once"]} in
  (forall uri content,
     (uri, content) ∈ twoOverrides -> content <> EmptyString ->
     plainRelative (plainPath "sketch") (plainPath uri) <> "b.h") /\
  SourceOverrides.mergeSourceOverrides plainPath plainRelative "sketch"
    twoOverrides m !! "b.h" = Some "#pragma once".
Proof.
  cbv zeta.
  assert (Hother : forall uri content,
            (uri, content) ∈ twoOverrides -> content <> EmptyString ->
            plainRelative (plainPath "sketch") (plainPath uri) <> "b.h").
  { intros uri content Hin Hne.
    apply elem_of_cons in Hin as [Hin | Hin].
    - injection Hin as -> ->. discriminate.
    - apply list_elem_of_singleton in Hin. injection Hin as -> ->.
      now contradiction Hne. }
  split; [exact Hother |].
  rewrite (mergeSourceOverrides_skips_empty plainPath plainRelative "sketch"
             twoOverrides _ "b.h" Hother).
  apply lookup_singleton_eq.
Defined.

Lemma mergeSourceOverrides_found_witness :
  NoDup (map (fun o : string * string =>
                plainRelative (plainPath "sketch") (plainPath (fst o)))
           twoOverrides) /\
  SourceOverrides.mergeSourceOverrides plainPath plainRelative "sketch"
    twoOverrides ∅ !! "a.ino" = Some "void setup() {}".
Proof.
  assert (Hnd : NoDup (map (fun o : string * string =>
                              plainRelative (plainPath "sketch")
                                (plainPath (fst o))) twoOverrides)).
  { apply (NoDup_ListNoDup ["a.ino"; "b.h"]). repeat constructor;
      simpl; intuition discriminate. }
  split; [exact Hnd |].
  apply (mergeSourceOverrides_found plainPath plainRelative "sketch"
           twoOverrides ∅ "a.ino" "void setup() {}" Hnd);
    [left | discriminate].
Defined.

(** ** The upload flags *)

Lemma doUpload_flags_characterised_witness :
  let s := CoreServiceImpl.mk false false [] in
  let a :=
    CoreServiceImpl.mkAwaits CoreServiceImpl.Resolves [] CoreServiceImpl.Resolves
      CoreServiceImpl.Rejects CoreServiceImpl.Resolves
      [] CoreServiceImpl.Resolves in
  CoreServiceImpl.uploading s = false /\
  CoreServiceImpl.isUploading (snd (CoreServiceImpl.doUpload "upload" a s))
    = true.
Proof.
  cbv zeta. split; [reflexivity |].
  apply (doUpload_flags_characterised "upload" _
           (CoreServiceImpl.mk false false []) eq_refl).
  simpl. auto.
Defined.

Lemma upload_flags_in_step_witness :
  let s := CoreServiceImpl.mk false false [] in
  let a :=
    CoreServiceImpl.mkAwaits CoreServiceImpl.Resolves [] CoreServiceImpl.Resolves
      CoreServiceImpl.Resolves CoreServiceImpl.Rejects
      [] CoreServiceImpl.Resolves in
  CoreServiceImpl.uploading s = CoreServiceImpl.uploadInProgress s /\
  CoreServiceImpl.uploading (snd (CoreServiceImpl.doUpload "upload" a s))
    = CoreServiceImpl.uploadInProgress
        (snd (CoreServiceImpl.doUpload "upload" a s)) /\
  CoreServiceImpl.uploading (snd (CoreServiceImpl.burnBootloader a s))
    = CoreServiceImpl.uploadInProgress
        (snd (CoreServiceImpl.burnBootloader a s)).
Proof.
  cbv zeta. split; [reflexivity |].
  exact (upload_flags_in_step "upload" _ (CoreServiceImpl.mk false false [])
           eq_refl).
Defined.

End MoreRuns.
